(** * The ServiceAccount controller of provider-confluent

    A shallow embedding of [internal/controller/serviceaccount]: the
    client factory [createAndConvertClientFunc], the [connector] with its
    [Connect] method and the [external] client with [Observe], [Create],
    [Update] and [Delete].

    Go values are modelled as follows.
    - An [error] is identified with its message ([Error()]); the [nil]
      error is [None].
    - A method with a pointer receiver or pointer argument that mutates
      the object returns the mutated object next to its Go results.
    - The remote Confluent API and the Kubernetes API server are state
      the controller does not own: a computation is a function of a
      [World] holding both, together with the list of calls made so
      far.  What they answer is left open: the clients are records of
      functions over arbitrary state types.
    - The context argument [ctx] is left out. *)

From Stdlib Require Import String Ascii List Bool Arith Lia.
Import ListNotations.
Open Scope string_scope.

(** ** Errors *)

Definition error : Type := string.

(** [errors.New(msg)]. *)
Definition errors_New (msg : string) : error := msg.

(** [errors.Wrap(err, msg)]: the message is [msg: err]. *)
Definition errors_Wrap (err : error) (msg : string) : error :=
  msg ++ ": " ++ err.

Definition errNotMyType : string :=
  "managed resource is not a ServiceAccount custom resource".
Definition errTrackPCUsage : string := "cannot track ProviderConfig usage".
Definition errGetPC : string := "cannot get ProviderConfig".
Definition errGetCreds : string := "cannot get credentials".
Definition errNewClient : string := "cannot create new Service".
Definition errAuthCredentials : string := "invalid client credentials".

(** ** [strings.Split] with a one-byte separator

    [Split s sep] cuts [s] at every occurrence of [sep]; the pieces keep
    their order and the separators are dropped.  An empty [s] gives one
    empty piece. *)

Fixpoint Split (s : string) (sep : ascii) : list string :=
  match s with
  | EmptyString => [EmptyString]
  | String c rest =>
      if Ascii.eqb c sep then EmptyString :: Split rest sep
      else match Split rest sep with
           | [] => [String c EmptyString]
           | p :: ps => String c p :: ps
           end
  end.

(** [strings.Count] for a one-byte pattern. *)
Fixpoint Count (s : string) (sep : ascii) : nat :=
  match s with
  | EmptyString => 0
  | String c rest => (if Ascii.eqb c sep then 1 else 0) + Count rest sep
  end.

(** ** Conditions ([xpv1], crossplane-runtime) *)

Module xpv1.

Inductive ConditionType := TypeReady | TypeSynced.
Inductive ConditionStatus := ConditionTrue | ConditionFalse | ConditionUnknown.
Inductive ConditionReason :=
| ReasonNone | ReasonAvailable | ReasonUnavailable | ReasonCreating
| ReasonDeleting | ReasonReconcileSuccess | ReasonReconcileError.

(** The transition time stamp is left out: [Equal] ignores it. *)
Record Condition := {
  Type_ : ConditionType;
  Status : ConditionStatus;
  Reason : ConditionReason
}.

Definition Creating : Condition :=
  {| Type_ := TypeReady; Status := ConditionFalse; Reason := ReasonCreating |}.
Definition Deleting : Condition :=
  {| Type_ := TypeReady; Status := ConditionFalse; Reason := ReasonDeleting |}.
Definition Available : Condition :=
  {| Type_ := TypeReady; Status := ConditionTrue; Reason := ReasonAvailable |}.

Definition type_eqb (a b : ConditionType) : bool :=
  match a, b with
  | TypeReady, TypeReady | TypeSynced, TypeSynced => true
  | _, _ => false
  end.

(** [ConditionedStatus.SetConditions] for one condition: an entry of
    the same type is overwritten in place, otherwise the condition is
    appended. *)
Fixpoint SetCondition (cs : list Condition) (new : Condition) : list Condition :=
  match cs with
  | [] => [new]
  | existing :: rest =>
      if type_eqb (Type_ existing) (Type_ new) then new :: rest
      else existing :: SetCondition rest new
  end.

(** [ConditionedStatus.GetCondition]: the entry of that type, or a
    condition of that type with status [Unknown]. *)
Fixpoint GetCondition (cs : list Condition) (ct : ConditionType) : Condition :=
  match cs with
  | [] => {| Type_ := ct; Status := ConditionUnknown; Reason := ReasonNone |}
  | c :: rest => if type_eqb (Type_ c) ct then c else GetCondition rest ct
  end.

End xpv1.

(** ** API types *)

(** [internal/clients]: the API-scoped credentials a ProviderConfig
    lists, one entry per API group.  Only [Identifier] is read by the
    controller. *)
Module clients.

Record APICredentials := {
  Identifier : string;
  Key : string;
  Secret : string
}.

(** The zero value of the struct. *)
Definition zero : APICredentials :=
  {| Identifier := ""; Key := ""; Secret := "" |}.

End clients.

(** [internal/clients/serviceaccount]: the record the remote API
    returns for a service account, and the client interface [IClient]
    over a remote system with states in [R]. *)
Module serviceaccount.

Record ServiceAccount := {
  ID : string;
  Name : string;
  Description : string
}.

Definition zero : ServiceAccount :=
  {| ID := ""; Name := ""; Description := "" |}.

Record Config := { APICredentials : clients.APICredentials }.

Record IClient (R : Type) := {
  ServiceAccountByName : string -> R -> (ServiceAccount * option error) * R;
  ServiceAccountCreate : string -> string -> R -> (ServiceAccount * option error) * R;
  ServiceAccountUpdate : string -> string -> R -> option error * R;
  ServiceAccountDelete : string -> R -> option error * R
}.
Arguments ServiceAccountByName {R}.
Arguments ServiceAccountCreate {R}.
Arguments ServiceAccountUpdate {R}.
Arguments ServiceAccountDelete {R}.

End serviceaccount.

(** [apis/acl/v1alpha1]: the ACL managed resource, the other kind this
    provider reconciles. *)
Module acl.

Record ACLBlock := {
  Operation : string;
  PatternType : string;
  Permission : string;
  Principal : string;
  ResourceName : string;
  ResourceType : string;
  Environment : string;
  Cluster : string
}.

Record ACLParameters := { ACLBlockList : list ACLBlock }.
Record ACLObservation := { ACLBlockObservationList : list ACLBlock }.

Record ACLSpec := {
  ProviderConfigReference : string;
  ForProvider : ACLParameters
}.

Record ACLStatus := {
  Conditions : list xpv1.Condition;
  AtProvider : ACLObservation
}.

Record ACL := {
  Name : string;
  Spec : ACLSpec;
  Status : ACLStatus
}.

End acl.

(** [apis/serviceaccount/v1alpha1]: the ServiceAccount managed resource.
    [ExternalName] is the value of the [crossplane.io/external-name]
    annotation, empty when the annotation is absent
    ([meta.GetExternalName]); [Deleted] says that a deletion time stamp
    is set ([meta.WasDeleted]). *)
Module v1alpha1.

Record ObjectMeta := {
  Name : string;
  ExternalName : string;
  Deleted : bool
}.

Record ServiceAccountParameters := { Description : string }.
Record ServiceAccountObservation := { ID : string }.

Record ServiceAccountSpec := {
  ProviderConfigReference : string;
  ForProvider : ServiceAccountParameters
}.

Record ServiceAccountStatus := {
  Conditions : list xpv1.Condition;
  AtProvider : ServiceAccountObservation
}.

Record ServiceAccount := {
  Meta : ObjectMeta;
  Spec : ServiceAccountSpec;
  Status : ServiceAccountStatus
}.

(** [cr.Status.SetConditions(c)]. *)
Definition SetConditions (cr : ServiceAccount) (c : xpv1.Condition) : ServiceAccount :=
  {| Meta := Meta cr;
     Spec := Spec cr;
     Status := {| Conditions := xpv1.SetCondition (Conditions (Status cr)) c;
                  AtProvider := AtProvider (Status cr) |} |}.

(** [cr.Status.AtProvider.ID = id]. *)
Definition SetID (cr : ServiceAccount) (id : string) : ServiceAccount :=
  {| Meta := Meta cr;
     Spec := Spec cr;
     Status := {| Conditions := Conditions (Status cr);
                  AtProvider := {| ID := id |} |} |}.

(** [meta.SetExternalName(cr, name)]. *)
Definition SetExternalName (cr : ServiceAccount) (name : string) : ServiceAccount :=
  {| Meta := {| Name := Name (Meta cr);
                ExternalName := name;
                Deleted := Deleted (Meta cr) |};
     Spec := Spec cr;
     Status := Status cr |}.

End v1alpha1.

(** [resource.Managed]: the interface value handed to the controller.
    Its dynamic type is a ServiceAccount, an ACL, or some other kind. *)
Inductive Managed :=
| ManagedServiceAccount (cr : v1alpha1.ServiceAccount)
| ManagedACL (a : acl.ACL)
| ManagedOther (kind : string).

(** [apis/v1alpha1.ProviderConfig]: where the credentials come from,
    and the API-scoped credentials. *)
Record ProviderConfig := {
  CredentialsSource : string;
  CredentialsSelector : string;
  APICredentials : list clients.APICredentials
}.

Definition zeroProviderConfig : ProviderConfig :=
  {| CredentialsSource := ""; CredentialsSelector := ""; APICredentials := [] |}.

(** [managed.ExternalObservation]; the connection details are empty in
    every value the controller builds and are left out, as they are in
    [managed.ExternalCreation] and [managed.ExternalUpdate], which then
    carry nothing. *)
Record ExternalObservation := {
  ResourceExists : bool;
  ResourceUpToDate : bool
}.

Definition zeroObservation : ExternalObservation :=
  {| ResourceExists := false; ResourceUpToDate := false |}.

(** The Kubernetes client ([client.Client] of controller-runtime) over
    an API server with states in [K]: reading a ProviderConfig by name
    ([Get]), writing the object ([Update]) and writing its status
    subresource ([Status().Update]).  A write is taken to leave the
    object in memory as it is. *)
Module client.

Record Client (K : Type) := {
  Get : string -> K -> ProviderConfig * option error;
  Update : v1alpha1.ServiceAccount -> K -> option error * K;
  StatusUpdate : v1alpha1.ServiceAccount -> K -> option error * K
}.
Arguments Get {K}.
Arguments Update {K}.
Arguments StatusUpdate {K}.

End client.

(** [resource.Tracker]. *)
Record Tracker (K : Type) := {
  Track : Managed -> K -> option error * K
}.
Arguments Track {K}.

(** ** The world and the calls made on it *)

Inductive Call :=
| CallTrack (res : option error)
| CallAuthenticate (identity secret : string) (res : option error)
| CallServiceAccountByName (name : string) (res : option error)
| CallServiceAccountCreate (name description : string)
    (out : serviceaccount.ServiceAccount) (res : option error)
| CallServiceAccountUpdate (id description : string) (res : option error)
| CallServiceAccountDelete (id : string) (res : option error)
| CallKubeUpdate (cr : v1alpha1.ServiceAccount) (res : option error)
| CallKubeStatusUpdate (cr : v1alpha1.ServiceAccount) (res : option error).

(** [trace] lists the calls made so far, the most recent first. *)
Record World (R K : Type) := {
  remote : R;
  store : K;
  trace : list Call
}.
Arguments remote {R K}.
Arguments store {R K}.
Arguments trace {R K}.

Definition createCalls (t : list Call) : nat :=
  length (filter (fun c => match c with CallServiceAccountCreate _ _ _ _ => true | _ => false end) t).
Definition updateCalls (t : list Call) : nat :=
  length (filter (fun c => match c with CallServiceAccountUpdate _ _ _ => true | _ => false end) t).
Definition deleteCalls (t : list Call) : nat :=
  length (filter (fun c => match c with CallServiceAccountDelete _ _ => true | _ => false end) t).
Definition authenticateCalls (t : list Call) : nat :=
  length (filter (fun c => match c with CallAuthenticate _ _ _ => true | _ => false end) t).

(** A computation over the world. *)
Definition M (R K A : Type) : Type := World R K -> A * World R K.

Definition ret {R K A} (a : A) : M R K A := fun w => (a, w).

Definition bind {R K A B} (m : M R K A) (f : A -> M R K B) : M R K B :=
  fun w => let (a, w') := m w in f a w'.

Declare Scope go_scope.
Delimit Scope go_scope with go.
Notation "x <- c1 ;; c2" := (bind c1 (fun x => c2))
  (at level 61, c1 at next level, right associativity) : go_scope.
Notation "' pat <- c1 ;; c2" := (bind c1 (fun x => match x with pat => c2 end))
  (at level 61, pat pattern, c1 at next level, right associativity) : go_scope.

(** A call on the remote system, logged with [ev]. *)
Definition callRemote {R K A} (f : R -> A * R) (ev : A -> Call) : M R K A :=
  fun w =>
    let (a, r) := f (remote w) in
    (a, {| remote := r; store := store w; trace := ev a :: trace w |}).

(** A call that writes to the API server, logged with [ev]. *)
Definition callStore {R K A} (f : K -> A * K) (ev : A -> Call) : M R K A :=
  fun w =>
    let (a, k) := f (store w) in
    (a, {| remote := remote w; store := k; trace := ev a :: trace w |}).

(** A read of the API server. *)
Definition readStore {R K A} (f : K -> A) : M R K A :=
  fun w => (f (store w), w).

(** ** The controller *)

(** The helpers of the controller package that [Observe] and [Create]
    call.  Their source is not at hand: the operations take them as
    parameters.  They are taken to read the resource and leave it as
    it is. *)
Record Helpers := {
  ExternalNameHelper : v1alpha1.ServiceAccount -> string * bool;
  ObserveCreateResource : v1alpha1.ServiceAccount -> option error -> bool * option error;
  ObserveUpdateResource : v1alpha1.ServiceAccount -> serviceaccount.ServiceAccount -> bool;
  CreateResourceIsImport : option error -> bool * option error
}.

(** What the controller uses of [internal/clients] and of
    crossplane-runtime: the account-level authentication
    ([clients.NewClient().Authenticate]), the constructor of the
    service-account client ([serviceaccount.NewClient]), the credential
    extractor ([resource.CommonCredentialExtractor]) and the identifier
    of this API group ([v1alpha1.SchemeGroupVersion.Identifier()]). *)
Record Packages (R K : Type) := {
  Authenticate : string -> string -> R -> option error * R;
  NewClient : serviceaccount.Config -> serviceaccount.IClient R;
  CommonCredentialExtractor : string -> string -> K -> string * option error;
  SchemeGroupVersionIdentifier : string
}.
Arguments Authenticate {R K}.
Arguments NewClient {R K}.
Arguments CommonCredentialExtractor {R K}.
Arguments SchemeGroupVersionIdentifier {R K}.

(** [external]: the client [Connect] produces.  [service] is held as
    an [interface{}] and asserted to be an [IClient] at every use; it
    is typed here as what [serviceaccount.NewClient] returns. *)
Record external (R K : Type) := {
  service : serviceaccount.IClient R;
  kube : client.Client K
}.
Arguments service {R K}.
Arguments kube {R K}.

(** [connector]; its [kube] field is [conn_kube] here. *)
Record connector (R K : Type) := {
  conn_kube : client.Client K;
  usage : Tracker K;
  newServiceFn : string -> clients.APICredentials ->
                 M R K (option (serviceaccount.IClient R) * option error)
}.
Arguments conn_kube {R K}.
Arguments usage {R K}.
Arguments newServiceFn {R K}.

Section Controller.

Context {R K : Type}.
Variable pkg : Packages R K.
Variable h : Helpers.

Local Open Scope go_scope.

(** [createAndConvertClientFunc]. *)
Definition createAndConvertClientFunc (clientCreds : string)
  (apiCreds : clients.APICredentials)
  : M R K (option (serviceaccount.IClient R) * option error) :=
  let credParts := Split clientCreds ":"%char in
  if negb (Nat.eqb (List.length credParts) 2) then
    ret (None, Some (errors_New errAuthCredentials))
  else
    authErr <- callRemote (Authenticate pkg (nth 0 credParts "") (nth 1 credParts ""))
                 (CallAuthenticate (nth 0 credParts "") (nth 1 credParts "")) ;;
    match authErr with
    | Some e => ret (None, Some e)
    | None =>
        let srConfig := {| serviceaccount.APICredentials := apiCreds |} in
        ret (Some (NewClient pkg srConfig), None)
    end.

(** The loop of [Connect] over [pc.Spec.APICredentials]: the first
    entry with this group's identifier, the zero value when there is
    none. *)
Fixpoint selectAPICredentials (l : list clients.APICredentials) : clients.APICredentials :=
  match l with
  | [] => clients.zero
  | value :: rest =>
      if String.eqb (clients.Identifier value) (SchemeGroupVersionIdentifier pkg)
      then value
      else selectAPICredentials rest
  end.

(** [connector.Connect].  The resource is taken to name its
    ProviderConfig.  A factory that returned neither a client nor an
    error, which [createAndConvertClientFunc] never does, yields no
    client here. *)
Definition Connect (c : connector R K) (mg : Managed)
  : M R K (option (external R K) * option error) :=
  match mg with
  | ManagedServiceAccount cr =>
      err <- callStore (Track (usage c) mg) CallTrack ;;
      match err with
      | Some e => ret (None, Some (errors_Wrap e errTrackPCUsage))
      | None =>
          '(pc, err) <- readStore
             (client.Get (conn_kube c) (v1alpha1.ProviderConfigReference (v1alpha1.Spec cr))) ;;
          match err with
          | Some e => ret (None, Some (errors_Wrap e errGetPC))
          | None =>
              '(clientCredentialData, err) <- readStore
                 (CommonCredentialExtractor pkg
                    (CredentialsSource pc) (CredentialsSelector pc)) ;;
              match err with
              | Some e => ret (None, Some (errors_Wrap e errGetCreds))
              | None =>
                  let apiCredentials := selectAPICredentials (APICredentials pc) in
                  '(svc, err) <- newServiceFn c clientCredentialData apiCredentials ;;
                  match err, svc with
                  | Some e, _ => ret (None, Some (errors_Wrap e errNewClient))
                  | None, Some svc =>
                      ret (Some {| service := svc; kube := conn_kube c |}, None)
                  | None, None => ret (None, None)
                  end
              end
          end
      end
  | _ => ret (None, Some (errors_New errNotMyType))
  end.

(** The connector [Setup] registers. *)
Definition setupConnector (kubeClient : client.Client K) (tracker : Tracker K)
  : connector R K :=
  {| conn_kube := kubeClient;
     usage := tracker;
     newServiceFn := createAndConvertClientFunc |}.

Definition kubeStatusUpdate (c : external R K) (cr : v1alpha1.ServiceAccount)
  : M R K (option error) :=
  callStore (client.StatusUpdate (kube c) cr) (CallKubeStatusUpdate cr).

Definition kubeUpdate (c : external R K) (cr : v1alpha1.ServiceAccount)
  : M R K (option error) :=
  callStore (client.Update (kube c) cr) (CallKubeUpdate cr).

(** [external.Observe]. *)
Definition Observe (c : external R K) (mg : Managed)
  : M R K (Managed * (ExternalObservation * option error)) :=
  match mg with
  | ManagedServiceAccount cr =>
      let '(name, _) := ExternalNameHelper h cr in
      '(observe, err) <- callRemote
         (serviceaccount.ServiceAccountByName (service c) name)
         (fun r => CallServiceAccountByName name (snd r)) ;;
      let '(create, err) := ObserveCreateResource h cr err in
      match err with
      | Some e =>
          ret (mg, ({| ResourceExists := false; ResourceUpToDate := false |}, Some e))
      | None =>
          if create then
            ret (mg, ({| ResourceExists := false; ResourceUpToDate := false |}, None))
          else if ObserveUpdateResource h cr observe then
            ret (mg, ({| ResourceExists := true; ResourceUpToDate := false |}, None))
          else
            let cr := v1alpha1.SetConditions cr xpv1.Available in
            err <- kubeStatusUpdate c cr ;;
            match err with
            | Some e => ret (ManagedServiceAccount cr, (zeroObservation, Some e))
            | None =>
                ret (ManagedServiceAccount cr,
                     ({| ResourceExists := true; ResourceUpToDate := true |}, None))
            end
      end
  | _ => ret (mg, (zeroObservation, Some (errors_New errNotMyType)))
  end.

(** The end of [external.Create], from [meta.SetExternalName] on. *)
Definition createPersist (c : external R K) (cr : v1alpha1.ServiceAccount)
  (name : string) : M R K (Managed * option error) :=
  let cr := v1alpha1.SetExternalName cr name in
  err <- kubeUpdate c cr ;;
  match err with
  | Some e => ret (ManagedServiceAccount cr, Some e)
  | None =>
      err <- kubeStatusUpdate c cr ;;
      match err with
      | Some e => ret (ManagedServiceAccount cr, Some e)
      | None => ret (ManagedServiceAccount cr, None)
      end
  end.

(** The middle of [external.Create]: the remote creation unless the
    creation is an import. *)
Definition createUnlessImport (c : external R K) (cr : v1alpha1.ServiceAccount)
  (name : string) (createIsImport : bool) : M R K (Managed * option error) :=
  if negb createIsImport then
    '(out, err) <- callRemote
       (serviceaccount.ServiceAccountCreate (service c) name
          (v1alpha1.Description (v1alpha1.ForProvider (v1alpha1.Spec cr))))
       (fun r => CallServiceAccountCreate name
          (v1alpha1.Description (v1alpha1.ForProvider (v1alpha1.Spec cr)))
          (fst r) (snd r)) ;;
    match err with
    | Some e => ret (ManagedServiceAccount cr, Some e)
    | None => createPersist c (v1alpha1.SetID cr (serviceaccount.ID out)) name
    end
  else createPersist c cr name.

(** [external.Create]. *)
Definition Create (c : external R K) (mg : Managed) : M R K (Managed * option error) :=
  match mg with
  | ManagedServiceAccount cr =>
      let cr := v1alpha1.SetConditions cr xpv1.Creating in
      err <- kubeStatusUpdate c cr ;;
      match err with
      | Some e => ret (ManagedServiceAccount cr, Some e)
      | None =>
          let '(name, exists_) := ExternalNameHelper h cr in
          if exists_ then
            '(observe, err) <- callRemote
               (serviceaccount.ServiceAccountByName (service c) name)
               (fun r => CallServiceAccountByName name (snd r)) ;;
            let '(createIsImport, err) := CreateResourceIsImport h err in
            match err with
            | Some e => ret (ManagedServiceAccount cr, Some e)
            | None =>
                if createIsImport then
                  createUnlessImport c
                    (v1alpha1.SetID cr (serviceaccount.ID observe)) name true
                else createUnlessImport c cr name false
            end
          else createUnlessImport c cr name false
      end
  | _ => ret (mg, Some (errors_New errNotMyType))
  end.

(** [external.Update]. *)
Definition Update (c : external R K) (mg : Managed) : M R K (Managed * option error) :=
  match mg with
  | ManagedServiceAccount cr =>
      err <- callRemote
        (serviceaccount.ServiceAccountUpdate (service c)
           (v1alpha1.ID (v1alpha1.AtProvider (v1alpha1.Status cr)))
           (v1alpha1.Description (v1alpha1.ForProvider (v1alpha1.Spec cr))))
        (CallServiceAccountUpdate
           (v1alpha1.ID (v1alpha1.AtProvider (v1alpha1.Status cr)))
           (v1alpha1.Description (v1alpha1.ForProvider (v1alpha1.Spec cr)))) ;;
      match err with
      | Some e => ret (mg, Some e)
      | None => ret (mg, None)
      end
  | _ => ret (mg, Some (errors_New errNotMyType))
  end.

(** [external.Delete]. *)
Definition Delete (c : external R K) (mg : Managed) : M R K (Managed * option error) :=
  match mg with
  | ManagedServiceAccount cr =>
      let cr := v1alpha1.SetConditions cr xpv1.Deleting in
      err <- kubeStatusUpdate c cr ;;
      match err with
      | Some e => ret (ManagedServiceAccount cr, Some e)
      | None =>
          err <- callRemote
            (serviceaccount.ServiceAccountDelete (service c)
               (v1alpha1.ID (v1alpha1.AtProvider (v1alpha1.Status cr))))
            (CallServiceAccountDelete
               (v1alpha1.ID (v1alpha1.AtProvider (v1alpha1.Status cr)))) ;;
          match err with
          | Some e => ret (ManagedServiceAccount cr, Some e)
          | None => ret (ManagedServiceAccount cr, None)
          end
      end
  | _ => ret (mg, Some (errors_New errNotMyType))
  end.

End Controller.

Arguments createAndConvertClientFunc {R K}.
Arguments selectAPICredentials {R K}.
Arguments Connect {R K}.
Arguments setupConnector {R K}.
Arguments kubeStatusUpdate {R K}.
Arguments kubeUpdate {R K}.
Arguments Observe {R K}.
Arguments createPersist {R K}.
Arguments createUnlessImport {R K}.
Arguments Create {R K}.
Arguments Update {R K}.
Arguments Delete {R K}.

(** ** The reconciliation engine *)

Inductive Action :=
| ActionNone | ActionCreate | ActionUpdate | ActionNoOp | ActionDelete.

(** [meta.WasDeleted]. *)
Definition WasDeleted (mg : Managed) : bool :=
  match mg with
  | ManagedServiceAccount cr => v1alpha1.Deleted (v1alpha1.Meta cr)
  | _ => false
  end.

Section Engine.

Context {R K : Type}.
Variable h : Helpers.

Local Open Scope go_scope.

(** Modelled from the spec: the per-tick algorithm of the
    Reconciliation Engine once connected (section 4.3, steps 2 to 5);
    the engine is the managed reconciler of crossplane-runtime and is
    not part of the controller package.  A resource marked for deletion
    takes the deletion path: the [Deleting] condition, then the remote
    delete, which is [Delete].  Otherwise the engine observes; an error
    ends the tick; a resource that does not exist is created, one that
    exists and is not up to date is updated, and one that is up to date
    is left alone. *)
Definition Tick (c : external R K) (mg : Managed)
  : M R K (Managed * (Action * option error)) :=
  if WasDeleted mg then
    '(mg, err) <- Delete c mg ;;
    ret (mg, (ActionDelete, err))
  else
    '(mg, (observation, err)) <- Observe h c mg ;;
    match err with
    | Some e => ret (mg, (ActionNone, Some e))
    | None =>
        if negb (ResourceExists observation) then
          '(mg, err) <- Create h c mg ;;
          ret (mg, (ActionCreate, err))
        else if negb (ResourceUpToDate observation) then
          '(mg, err) <- Update c mg ;;
          ret (mg, (ActionUpdate, err))
        else ret (mg, (ActionNoOp, None))
    end.

(** Modelled from the spec: one reconciliation tick (section 4.3):
    connect, and when that fails end the tick with its error; otherwise
    run the tick with the client obtained. *)
Definition Reconcile (pkg : Packages R K) (conn : connector R K) (mg : Managed)
  : M R K (Managed * (Action * option error)) :=
  '(c, err) <- Connect pkg conn mg ;;
  match err, c with
  | Some e, _ => ret (mg, (ActionNone, Some e))
  | None, Some c => Tick c mg
  | None, None => ret (mg, (ActionNone, None))
  end.

(** [n] ticks in a row on the same client. *)
Fixpoint Ticks (n : nat) (c : external R K) (mg : Managed)
  : M R K (Managed * list (Action * option error)) :=
  match n with
  | 0 => ret (mg, [])
  | S n =>
      '(mg, res) <- Tick c mg ;;
      '(mg, rest) <- Ticks n c mg ;;
      ret (mg, res :: rest)
  end.

End Engine.

(** ** The helpers, from the spec *)

Definition NotFound : error := "NotFound".
Definition RemoteObjectMissing : error := "RemoteObjectMissing".

(** Modelled from the spec: [ExternalNameHelper], which is not in the
    sources at hand (section 4.3, step 2): the external name when the
    resource carries one, otherwise the candidate name derived from the
    declared identity, with whether an external name was there. *)
Definition specExternalNameHelper (cr : v1alpha1.ServiceAccount) : string * bool :=
  if String.eqb (v1alpha1.ExternalName (v1alpha1.Meta cr)) ""
  then (v1alpha1.Name (v1alpha1.Meta cr), false)
  else (v1alpha1.ExternalName (v1alpha1.Meta cr), true).

(** Modelled from the spec: [ObserveCreateResource], which is not in the
    sources at hand (section 4.3, step 3): a lookup that fails with
    [NotFound] asks for a creation when the resource has no external
    name and is the error [RemoteObjectMissing] when it has one; any
    other lookup error ends the tick; a lookup that succeeds asks for
    no creation. *)
Definition specObserveCreateResource (cr : v1alpha1.ServiceAccount)
  (err : option error) : bool * option error :=
  match err with
  | None => (false, None)
  | Some e =>
      if String.eqb e NotFound then
        if snd (specExternalNameHelper cr)
        then (false, Some RemoteObjectMissing)
        else (true, None)
      else (false, Some e)
  end.

(** Modelled from the spec: [ObserveUpdateResource], which is not in the
    sources at hand (section 4.3, drift comparison): the declared spec
    fields against the ones the snapshot mirrors, which for a service
    account is the description. *)
Definition specObserveUpdateResource (cr : v1alpha1.ServiceAccount)
  (observe : serviceaccount.ServiceAccount) : bool :=
  negb (String.eqb (v1alpha1.Description (v1alpha1.ForProvider (v1alpha1.Spec cr)))
          (serviceaccount.Description observe)).

(** Modelled from the spec: [CreateResourceIsImport], which is not in
    the sources at hand (section 4.3, step 3): a lookup that succeeds
    makes the creation an import, one that fails with [NotFound] does
    not, any other lookup error ends the tick. *)
Definition specCreateResourceIsImport (err : option error) : bool * option error :=
  match err with
  | None => (true, None)
  | Some e => if String.eqb e NotFound then (false, None) else (false, Some e)
  end.

Definition specHelpers : Helpers :=
  {| ExternalNameHelper := specExternalNameHelper;
     ObserveCreateResource := specObserveCreateResource;
     ObserveUpdateResource := specObserveUpdateResource;
     CreateResourceIsImport := specCreateResourceIsImport |}.

(** ** A remote system and an API server, from the spec *)

(** The accounts of the remote system, and the verdict each kind of
    call is forced to when one is set. *)
Record FakeRemote := {
  accounts : list serviceaccount.ServiceAccount;
  authFault : option error;
  lookupFault : option error;
  createFault : option error;
  updateFault : option error;
  deleteFault : option error
}.

Definition withAccounts (r : FakeRemote) (l : list serviceaccount.ServiceAccount)
  : FakeRemote :=
  {| accounts := l;
     authFault := authFault r;
     lookupFault := lookupFault r;
     createFault := createFault r;
     updateFault := updateFault r;
     deleteFault := deleteFault r |}.

Definition byName (name : string) (a : serviceaccount.ServiceAccount) : bool :=
  String.eqb (serviceaccount.Name a) name.
Definition byID (id : string) (a : serviceaccount.ServiceAccount) : bool :=
  String.eqb (serviceaccount.ID a) id.

(** Whether the remote system has an object with this identifier. *)
Definition present (id : string) (r : FakeRemote) : bool :=
  existsb (byID id) (accounts r).

(** Modelled from the spec: the External Client capability of section
    4.2; the client of [internal/clients/serviceaccount] is not in the
    sources at hand.  [LookupByName] fails with [NotFound] when no
    object has the name; [Create] is rejected on a duplicate name;
    [Update] fails on an object that is not there; [Delete] of an
    object that is already absent is a success. *)
Definition fakeClient : serviceaccount.IClient FakeRemote :=
  {| serviceaccount.ServiceAccountByName := fun name r =>
       match lookupFault r with
       | Some e => ((serviceaccount.zero, Some e), r)
       | None =>
           match find (byName name) (accounts r) with
           | Some a => ((a, None), r)
           | None => ((serviceaccount.zero, Some NotFound), r)
           end
       end;
     serviceaccount.ServiceAccountCreate := fun name description r =>
       match createFault r with
       | Some e => ((serviceaccount.zero, Some e), r)
       | None =>
           if existsb (byName name) (accounts r)
           then ((serviceaccount.zero, Some "CreateError"), r)
           else
             let a := {| serviceaccount.ID := "sa-" ++ name;
                         serviceaccount.Name := name;
                         serviceaccount.Description := description |} in
             ((a, None), withAccounts r (accounts r ++ [a]))
       end;
     serviceaccount.ServiceAccountUpdate := fun id description r =>
       match updateFault r with
       | Some e => (Some e, r)
       | None =>
           if present id r then
             (None,
              withAccounts r
                (map (fun a =>
                        if byID id a
                        then {| serviceaccount.ID := serviceaccount.ID a;
                                serviceaccount.Name := serviceaccount.Name a;
                                serviceaccount.Description := description |}
                        else a) (accounts r)))
           else (Some "UpdateError", r)
       end;
     serviceaccount.ServiceAccountDelete := fun id r =>
       match deleteFault r with
       | Some e => (Some e, r)
       | None => (None, withAccounts r (filter (fun a => negb (byID id a)) (accounts r)))
       end |}.

(** The API server: the stored ServiceAccount, the ProviderConfig under
    its name, the credential bytes it selects, the number of usages
    tracked, and the verdicts of the coming writes in order (a write
    past the end of the list succeeds). *)
Record FakeStore := {
  object : v1alpha1.ServiceAccount;
  config : string * ProviderConfig;
  secret : option string;
  usages : nat;
  writeFaults : list (option error)
}.

Definition afterWrite (k : FakeStore) (o : v1alpha1.ServiceAccount) : FakeStore :=
  {| object := o;
     config := config k;
     secret := secret k;
     usages := usages k;
     writeFaults := tl (writeFaults k) |}.

(** Modelled from the spec: the Desired-State Store (section 2), which
    persists the declared resource and its observed status.  [Update]
    writes the metadata and the spec, [Status().Update] the status. *)
Definition fakeKube : client.Client FakeStore :=
  {| client.Get := fun name k =>
       if String.eqb (fst (config k)) name
       then (snd (config k), None)
       else (zeroProviderConfig, Some "not found");
     client.Update := fun cr k =>
       match writeFaults k with
       | Some e :: _ => (Some e, afterWrite k (object k))
       | _ => (None,
               afterWrite k {| v1alpha1.Meta := v1alpha1.Meta cr;
                               v1alpha1.Spec := v1alpha1.Spec cr;
                               v1alpha1.Status := v1alpha1.Status (object k) |})
       end;
     client.StatusUpdate := fun cr k =>
       match writeFaults k with
       | Some e :: _ => (Some e, afterWrite k (object k))
       | _ => (None,
               afterWrite k {| v1alpha1.Meta := v1alpha1.Meta (object k);
                               v1alpha1.Spec := v1alpha1.Spec (object k);
                               v1alpha1.Status := v1alpha1.Status cr |})
       end |}.

Definition fakeTracker : Tracker FakeStore :=
  {| Track := fun _ k =>
       (None, {| object := object k;
                 config := config k;
                 secret := secret k;
                 usages := S (usages k);
                 writeFaults := writeFaults k |}) |}.

Definition fakePackages : Packages FakeRemote FakeStore :=
  {| Authenticate := fun _ _ r => (authFault r, r);
     NewClient := fun _ => fakeClient;
     CommonCredentialExtractor := fun _ _ k =>
       match secret k with
       | Some s => (s, None)
       | None => ("", Some "no credentials")
       end;
     SchemeGroupVersionIdentifier := "serviceaccount" |}.

Definition fakeExternal : external FakeRemote FakeStore :=
  {| service := fakeClient; kube := fakeKube |}.

Definition fakeConnector : connector FakeRemote FakeStore :=
  setupConnector fakePackages fakeKube fakeTracker.

(** ** Scenarios *)

Definition newServiceAccount (name externalName description id : string)
  (conditions : list xpv1.Condition) (deleted : bool) : v1alpha1.ServiceAccount :=
  {| v1alpha1.Meta := {| v1alpha1.Name := name;
                         v1alpha1.ExternalName := externalName;
                         v1alpha1.Deleted := deleted |};
     v1alpha1.Spec := {| v1alpha1.ProviderConfigReference := "default";
                         v1alpha1.ForProvider := {| v1alpha1.Description := description |} |};
     v1alpha1.Status := {| v1alpha1.Conditions := conditions;
                           v1alpha1.AtProvider := {| v1alpha1.ID := id |} |} |}.

(** The resource of the spec's example: identity [svc-1], description
    [payments], no external name. *)
Definition svc1 : v1alpha1.ServiceAccount :=
  newServiceAccount "svc-1" "" "payments" "" [] false.

(** The same resource once it has been created remotely. *)
Definition svc1Created : v1alpha1.ServiceAccount :=
  newServiceAccount "svc-1" "svc-1" "payments" "sa-svc-1" [xpv1.Creating] false.

(** The resource with its external name set by hand and nothing
    created yet. *)
Definition svc1Named : v1alpha1.ServiceAccount :=
  newServiceAccount "svc-1" "svc-1" "payments" "" [] false.

(** The created resource, marked for deletion. *)
Definition svc1Deleted : v1alpha1.ServiceAccount :=
  newServiceAccount "svc-1" "svc-1" "payments" "sa-svc-1" [xpv1.Available] true.

(** A managed resource of the other kind. *)
Definition acl1 : acl.ACL :=
  {| acl.Name := "acl-1";
     acl.Spec :=
       {| acl.ProviderConfigReference := "default";
          acl.ForProvider :=
            {| acl.ACLBlockList :=
                 [ {| acl.Operation := "READ";
                      acl.PatternType := "LITERAL";
                      acl.Permission := "ALLOW";
                      acl.Principal := "User:sa-svc-1";
                      acl.ResourceName := "payments";
                      acl.ResourceType := "TOPIC";
                      acl.Environment := "env-1";
                      acl.Cluster := "lkc-1" |} ] |} |};
     acl.Status :=
       {| acl.Conditions := [];
          acl.AtProvider := {| acl.ACLBlockObservationList := [] |} |} |}.

Definition remoteOf (l : list serviceaccount.ServiceAccount) : FakeRemote :=
  {| accounts := l;
     authFault := None;
     lookupFault := None;
     createFault := None;
     updateFault := None;
     deleteFault := None |}.

Definition remoteRejectingCreate (e : error) : FakeRemote :=
  {| accounts := [];
     authFault := None;
     lookupFault := None;
     createFault := Some e;
     updateFault := None;
     deleteFault := None |}.

Definition remoteRejectingAuth (e : error) : FakeRemote :=
  {| accounts := [];
     authFault := Some e;
     lookupFault := None;
     createFault := None;
     updateFault := None;
     deleteFault := None |}.

Definition account1 (description : string) : serviceaccount.ServiceAccount :=
  {| serviceaccount.ID := "sa-svc-1";
     serviceaccount.Name := "svc-1";
     serviceaccount.Description := description |}.

Definition storeOf (cr : v1alpha1.ServiceAccount) (credentials : string)
  (faults : list (option error)) : FakeStore :=
  {| object := cr;
     config := ("default",
                {| CredentialsSource := "Secret";
                   CredentialsSelector := "confluent-credentials";
                   APICredentials :=
                     [ {| clients.Identifier := "acl";
                          clients.Key := "k1"; clients.Secret := "s1" |};
                       {| clients.Identifier := "serviceaccount";
                          clients.Key := "k2"; clients.Secret := "s2" |} ] |});
     secret := Some credentials;
     usages := 0;
     writeFaults := faults |}.

Definition worldOf (r : FakeRemote) (k : FakeStore) : World FakeRemote FakeStore :=
  {| remote := r; store := k; trace := [] |}.

(** A remote system that never changes and answers every lookup with
    the same snapshot, and an API server that takes every write. *)
Definition steadyClient (a : serviceaccount.ServiceAccount) : serviceaccount.IClient unit :=
  {| serviceaccount.ServiceAccountByName := fun _ r => ((a, None), r);
     serviceaccount.ServiceAccountCreate := fun _ _ r =>
       ((serviceaccount.zero, Some "CreateError"), r);
     serviceaccount.ServiceAccountUpdate := fun _ _ r => (None, r);
     serviceaccount.ServiceAccountDelete := fun _ r => (None, r) |}.

Definition steadyKube : client.Client unit :=
  {| client.Get := fun _ _ => (zeroProviderConfig, None);
     client.Update := fun _ k => (None, k);
     client.StatusUpdate := fun _ k => (None, k) |}.

Definition steadyExternal (a : serviceaccount.ServiceAccount) : external unit unit :=
  {| service := steadyClient a; kube := steadyKube |}.

(** ** Observations on a run *)

Definition AtProviderID (cr : v1alpha1.ServiceAccount) : string :=
  v1alpha1.ID (v1alpha1.AtProvider (v1alpha1.Status cr)).

Definition DescriptionOf (cr : v1alpha1.ServiceAccount) : string :=
  v1alpha1.Description (v1alpha1.ForProvider (v1alpha1.Spec cr)).

Definition ExternalNameOf (cr : v1alpha1.ServiceAccount) : string :=
  v1alpha1.ExternalName (v1alpha1.Meta cr).

(** The [Ready] condition of the resource. *)
Definition ReadyCondition (cr : v1alpha1.ServiceAccount) : xpv1.Condition :=
  xpv1.GetCondition (v1alpha1.Conditions (v1alpha1.Status cr)) xpv1.TypeReady.

Definition isServiceAccount (mg : Managed) : bool :=
  match mg with
  | ManagedServiceAccount _ => true
  | _ => false
  end.

(** [AtProvider.ID] of a managed resource that is a ServiceAccount. *)
Definition managedID (mg : Managed) : option string :=
  match mg with
  | ManagedServiceAccount cr => Some (AtProviderID cr)
  | _ => None
  end.

(** A call that changes the remote system. *)
Definition isMutation (c : Call) : bool :=
  match c with
  | CallServiceAccountCreate _ _ _ _
  | CallServiceAccountUpdate _ _ _
  | CallServiceAccountDelete _ _ => true
  | _ => false
  end.


(** The world after a call on the remote system. *)
Definition afterRemote {R K : Type} (w : World R K) (r : R) (call : Call) : World R K :=
  {| remote := r; store := store w; trace := call :: trace w |}.

(** The world after a write to the API server. *)
Definition afterStore {R K : Type} (w : World R K) (k : K) (call : Call) : World R K :=
  {| remote := remote w; store := k; trace := call :: trace w |}.

(** The helpers read the metadata and the spec of the resource, not its
    conditions. *)
Definition ignoresConditions (h : Helpers) : Prop :=
  forall (cr : v1alpha1.ServiceAccount) (cond : xpv1.Condition),
    ExternalNameHelper h (v1alpha1.SetConditions cr cond) = ExternalNameHelper h cr /\
    (forall err, ObserveCreateResource h (v1alpha1.SetConditions cr cond) err
                 = ObserveCreateResource h cr err) /\
    (forall observe, ObserveUpdateResource h (v1alpha1.SetConditions cr cond) observe
                     = ObserveUpdateResource h cr observe).

(** The resource is not marked for deletion, and whenever it is looked
    up the remote system has an object which the helpers find to need
    neither a creation nor an update. *)
Definition converged {R K : Type} (h : Helpers) (c : external R K)
  (cr : v1alpha1.ServiceAccount) : Prop :=
  v1alpha1.Deleted (v1alpha1.Meta cr) = false /\
  ObserveCreateResource h cr None = (false, None) /\
  forall r : R,
    let lookup :=
      fst (serviceaccount.ServiceAccountByName (service c)
             (fst (ExternalNameHelper h cr)) r) in
    snd lookup = None /\ ObserveUpdateResource h cr (fst lookup) = false.

(** The API server takes every status write. *)
Definition statusWritesSucceed {R K : Type} (c : external R K) : Prop :=
  forall (cr : v1alpha1.ServiceAccount) (k : K),
    fst (client.StatusUpdate (kube c) cr k) = None.

(** ** Counting the calls of a run *)

Definition countCalls (p : Call -> bool) (t : list Call) : nat :=
  List.length (filter p t).

Definition isLookup (c : Call) : bool :=
  match c with CallServiceAccountByName _ _ => true | _ => false end.

(** A write of the object itself, [kube.Update]. *)
Definition isObjectWrite (c : Call) : bool :=
  match c with CallKubeUpdate _ _ => true | _ => false end.

(** A write of the status subresource, [kube.Status().Update]. *)
Definition isStatusWrite (c : Call) : bool :=
  match c with CallKubeStatusUpdate _ _ => true | _ => false end.

(** A call on the remote system. *)
Definition isRemoteCall (c : Call) : bool :=
  match c with
  | CallAuthenticate _ _ _
  | CallServiceAccountByName _ _
  | CallServiceAccountCreate _ _ _ _
  | CallServiceAccountUpdate _ _ _
  | CallServiceAccountDelete _ _ => true
  | _ => false
  end.

(** A remote creation or a write to the API server that was refused. *)
Definition isFailedStep (c : Call) : bool :=
  match c with
  | CallServiceAccountCreate _ _ _ (Some _)
  | CallKubeUpdate _ (Some _)
  | CallKubeStatusUpdate _ (Some _) => true
  | _ => false
  end.

(** [strings.Join] with a one-byte separator. *)
Fixpoint Join (parts : list string) (sep : ascii) : string :=
  match parts with
  | [] => EmptyString
  | [p] => p
  | p :: rest => (p ++ String sep (Join rest sep))%string
  end.

(** The conditions of a managed ServiceAccount by type. *)
Definition conditionOf (cr : v1alpha1.ServiceAccount) (ct : xpv1.ConditionType)
  : xpv1.Condition :=
  xpv1.GetCondition (v1alpha1.Conditions (v1alpha1.Status cr)) ct.

(** ** The build and test script

    The script builds the provider, lists the packages, keeps the ones
    under [/internal/] and tests each of them; it leaves with status 1
    when the build fails, before anything is listed or tested, and when
    a test has failed, after all of them have run. *)

(** What the [go] tool answers: the exit status of [go build], the
    lines of [go list ./...], and the exit status of [go test] on a
    package. *)
Record GoTool := {
  goBuild : nat;
  goList : list string;
  goTest : string -> nat
}.

(** [grep -e pat] on one line, for a pattern without special
    characters: the line has [pat] somewhere in it. *)
Fixpoint grepLine (pat line : string) : bool :=
  match line with
  | EmptyString => String.prefix pat line
  | String _ rest => String.prefix pat line || grepLine pat rest
  end.

(** The [for pkg in $PKGS] loop: the flag [fail] and the packages
    tested so far, the most recent first. *)
Fixpoint testPackages (tool : GoTool) (pkgs : list string)
  (fail : bool) (tested : list string) : bool * list string :=
  match pkgs with
  | [] => (fail, tested)
  | pkg :: rest =>
      let status := goTest tool pkg in
      let fail := if negb (Nat.eqb status 0) then true else fail in
      testPackages tool rest fail (pkg :: tested)
  end.

(** The script: its exit status and the packages it tested, in the
    order it tested them. *)
Definition buildAndTest (tool : GoTool) : nat * list string :=
  if negb (Nat.eqb (goBuild tool) 0) then (1, [])
  else
    let PKGS := filter (grepLine "/internal/") (goList tool) in
    let '(fail, tested) := testPackages tool PKGS false [] in
    if fail then (1, rev tested) else (0, rev tested).

(** A [go] tool for the examples: the build passes, and the package
    named [failing] fails its tests. *)
Definition goToolOf (packages : list string) (failing : string) : GoTool :=
  {| goBuild := 0;
     goList := packages;
     goTest := fun pkg => if String.eqb pkg failing then 1 else 0 |}.

(** * Properties *)

(** ** Strings and conditions *)

Lemma Split_length (s : string) (sep : ascii) :
  List.length (Split s sep) = S (Count s sep).
Proof.
  induction s as [|c rest IH]; simpl; [reflexivity|].
  destruct (Ascii.eqb c sep); simpl.
  - now rewrite IH.
  - destruct (Split rest sep) as [|p ps]; simpl in *; [discriminate|assumption].
Qed.

Example Split_pair : Split "id:secret" ":"%char = ["id"; "secret"].
Proof. reflexivity. Qed.

Example Split_no_separator : Split "idsecret" ":"%char = ["idsecret"].
Proof. reflexivity. Qed.

Example Split_three : Split "id:sec:ret" ":"%char = ["id"; "sec"; "ret"].
Proof. reflexivity. Qed.

Example Split_empty : Split "" ":"%char = [""].
Proof. reflexivity. Qed.

Example Split_separator_only : Split ":" ":"%char = [""; ""].
Proof. reflexivity. Qed.

Lemma Split_two_parts (s : string) (sep : ascii) :
  List.length (Split s sep) = 2 <-> Count s sep = 1.
Proof. rewrite Split_length. split; intros; lia. Qed.

Lemma append_cancel_l (a b c : string) : (a ++ b = a ++ c)%string -> b = c.
Proof.
  induction a as [|x a IH]; simpl; intros H; [assumption|].
  injection H as H. now apply IH.
Qed.

Lemma errors_Wrap_inj (e e' : error) (msg : string) :
  errors_Wrap e msg = errors_Wrap e' msg -> e = e'.
Proof.
  unfold errors_Wrap. intros H.
  apply append_cancel_l in H. now apply append_cancel_l in H.
Qed.

Lemma type_eqb_refl (t : xpv1.ConditionType) : xpv1.type_eqb t t = true.
Proof. now destruct t. Qed.

Lemma GetCondition_SetCondition (cs : list xpv1.Condition) (c : xpv1.Condition) :
  xpv1.GetCondition (xpv1.SetCondition cs c) (xpv1.Type_ c) = c.
Proof.
  induction cs as [|x cs IH]; simpl.
  - now rewrite type_eqb_refl.
  - destruct (xpv1.type_eqb (xpv1.Type_ x) (xpv1.Type_ c)) eqn:E; simpl.
    + now rewrite type_eqb_refl.
    + now rewrite E.
Qed.

Lemma SetCondition_idempotent (cs : list xpv1.Condition) (c : xpv1.Condition) :
  xpv1.SetCondition (xpv1.SetCondition cs c) c = xpv1.SetCondition cs c.
Proof.
  induction cs as [|x cs IH]; simpl.
  - now rewrite type_eqb_refl.
  - destruct (xpv1.type_eqb (xpv1.Type_ x) (xpv1.Type_ c)) eqn:E; simpl.
    + now rewrite type_eqb_refl.
    + now rewrite E, IH.
Qed.

Lemma SetConditions_idempotent (cr : v1alpha1.ServiceAccount) (c : xpv1.Condition) :
  v1alpha1.SetConditions (v1alpha1.SetConditions cr c) c = v1alpha1.SetConditions cr c.
Proof.
  unfold v1alpha1.SetConditions; simpl. now rewrite SetCondition_idempotent.
Qed.

Lemma Ready_SetConditions (cr : v1alpha1.ServiceAccount) (c : xpv1.Condition) :
  xpv1.Type_ c = xpv1.TypeReady ->
  ReadyCondition (v1alpha1.SetConditions cr c) = c.
Proof.
  intros H. unfold ReadyCondition; simpl. rewrite <- H.
  apply GetCondition_SetCondition.
Qed.

(** ** The calls of a run *)

(** Unfolding one primitive step of a computation. *)
Ltac run :=
  unfold Reconcile, Tick, Connect, Observe, Create, createUnlessImport,
    createPersist, Update, Delete, setupConnector, createAndConvertClientFunc,
    kubeStatusUpdate, kubeUpdate, bind, ret, callRemote, callStore, readStore in *;
  simpl in *.

(** ** A resource of another kind *)

(** C10. A managed resource that is not a ServiceAccount is refused by
    [Connect], [Observe], [Create], [Update] and [Delete] alike with
    the error "managed resource is not a ServiceAccount custom
    resource"; the resource and the world (remote system, API server,
    calls made) are what they were. *)
Theorem not_my_type_refused {R K : Type} (pkg : Packages R K) (h : Helpers)
  (conn : connector R K) (c : external R K) (mg : Managed) (w : World R K) :
  isServiceAccount mg = false ->
  Connect pkg conn mg w = ((None, Some (errors_New errNotMyType)), w) /\
  Observe h c mg w = ((mg, (zeroObservation, Some (errors_New errNotMyType))), w) /\
  Create h c mg w = ((mg, Some (errors_New errNotMyType)), w) /\
  Update c mg w = ((mg, Some (errors_New errNotMyType)), w) /\
  Delete c mg w = ((mg, Some (errors_New errNotMyType)), w).
Proof.
  intros Hmg. destruct mg as [cr|a|kind]; [discriminate Hmg| |];
    repeat split; reflexivity.
Qed.

Lemma not_my_type_refused_witness :
  let mg := ManagedACL acl1 in
  let w := worldOf (remoteOf [account1 "payments"]) (storeOf svc1 "id:secret" []) in
  Connect fakePackages fakeConnector mg w = ((None, Some errNotMyType), w) /\
  Observe specHelpers fakeExternal mg w = ((mg, (zeroObservation, Some errNotMyType)), w) /\
  Create specHelpers fakeExternal mg w = ((mg, Some errNotMyType), w) /\
  Update fakeExternal mg w = ((mg, Some errNotMyType), w) /\
  Delete fakeExternal mg w = ((mg, Some errNotMyType), w).
Proof.
  exact (not_my_type_refused fakePackages specHelpers fakeConnector fakeExternal
           (ManagedACL acl1)
           (worldOf (remoteOf [account1 "payments"]) (storeOf svc1 "id:secret" []))
           eq_refl).
Defined.

(** ** Update *)

(** What [Update] does to a ServiceAccount: one remote call, whose
    verdict it returns. *)
Lemma Update_run {R K : Type} (c : external R K) (cr : v1alpha1.ServiceAccount)
  (w : World R K) :
  let res := serviceaccount.ServiceAccountUpdate (service c)
               (AtProviderID cr) (DescriptionOf cr) (remote w) in
  Update c (ManagedServiceAccount cr) w =
  ((ManagedServiceAccount cr, fst res),
   {| remote := snd res;
      store := store w;
      trace := CallServiceAccountUpdate (AtProviderID cr) (DescriptionOf cr) (fst res)
               :: trace w |}).
Proof.
  unfold AtProviderID, DescriptionOf. run.
  destruct (serviceaccount.ServiceAccountUpdate _ _ _ _) as [[e|] r]; reflexivity.
Qed.

(** ** The operations, call by call *)

Section Runs.

Context {R K : Type}.
Variable h : Helpers.
Variable c : external R K.

Lemma createPersist_run (cr : v1alpha1.ServiceAccount) (name : string) (w : World R K) :
  let cr1 := v1alpha1.SetExternalName cr name in
  let write1 := client.Update (kube c) cr1 (store w) in
  let w1 := afterStore w (snd write1) (CallKubeUpdate cr1 (fst write1)) in
  let write2 := client.StatusUpdate (kube c) cr1 (store w1) in
  let w2 := afterStore w1 (snd write2) (CallKubeStatusUpdate cr1 (fst write2)) in
  createPersist c cr name w =
  match fst write1 with
  | Some e => ((ManagedServiceAccount cr1, Some e), w1)
  | None => ((ManagedServiceAccount cr1, fst write2), w2)
  end.
Proof.
  run. destruct (client.Update _ _ _) as [[e|] k1]; simpl; [reflexivity|].
  destruct (client.StatusUpdate _ _ _) as [[e|] k2]; reflexivity.
Qed.

Lemma createUnlessImport_run (cr : v1alpha1.ServiceAccount) (name : string)
  (w : World R K) :
  let res := serviceaccount.ServiceAccountCreate (service c) name (DescriptionOf cr) (remote w) in
  let w1 := afterRemote w (snd res)
              (CallServiceAccountCreate name (DescriptionOf cr) (fst (fst res)) (snd (fst res))) in
  createUnlessImport c cr name false w =
  match snd (fst res) with
  | Some e => ((ManagedServiceAccount cr, Some e), w1)
  | None => createPersist c (v1alpha1.SetID cr (serviceaccount.ID (fst (fst res)))) name w1
  end.
Proof.
  unfold DescriptionOf, createUnlessImport. run.
  destruct (serviceaccount.ServiceAccountCreate _ _ _ _) as [[out [e|]] r]; reflexivity.
Qed.

Lemma Create_run (cr : v1alpha1.ServiceAccount) (w : World R K) :
  let cr1 := v1alpha1.SetConditions cr xpv1.Creating in
  let write1 := client.StatusUpdate (kube c) cr1 (store w) in
  let w1 := afterStore w (snd write1) (CallKubeStatusUpdate cr1 (fst write1)) in
  let name := fst (ExternalNameHelper h cr1) in
  let lookup := serviceaccount.ServiceAccountByName (service c) name (remote w1) in
  let w2 := afterRemote w1 (snd lookup) (CallServiceAccountByName name (snd (fst lookup))) in
  let verdict := CreateResourceIsImport h (snd (fst lookup)) in
  Create h c (ManagedServiceAccount cr) w =
  match fst write1 with
  | Some e => ((ManagedServiceAccount cr1, Some e), w1)
  | None =>
      if snd (ExternalNameHelper h cr1) then
        match snd verdict with
        | Some e => ((ManagedServiceAccount cr1, Some e), w2)
        | None =>
            if fst verdict
            then createPersist c
                   (v1alpha1.SetID cr1 (serviceaccount.ID (fst (fst lookup)))) name w2
            else createUnlessImport c cr1 name false w2
        end
      else createUnlessImport c cr1 name false w1
  end.
Proof.
  unfold Create, bind, ret, kubeStatusUpdate, callStore, callRemote; simpl.
  destruct (client.StatusUpdate _ _ _) as [[e|] k1]; simpl; [reflexivity|].
  destruct (ExternalNameHelper h _) as [name [|]]; simpl; [|reflexivity].
  destruct (serviceaccount.ServiceAccountByName _ _ _) as [[observe err] r]; simpl.
  destruct (CreateResourceIsImport h err) as [[|] [e|]]; reflexivity.
Qed.

Lemma Observe_run (cr : v1alpha1.ServiceAccount) (w : World R K) :
  let name := fst (ExternalNameHelper h cr) in
  let lookup := serviceaccount.ServiceAccountByName (service c) name (remote w) in
  let w1 := afterRemote w (snd lookup) (CallServiceAccountByName name (snd (fst lookup))) in
  let verdict := ObserveCreateResource h cr (snd (fst lookup)) in
  let cr1 := v1alpha1.SetConditions cr xpv1.Available in
  let write := client.StatusUpdate (kube c) cr1 (store w1) in
  let w2 := afterStore w1 (snd write) (CallKubeStatusUpdate cr1 (fst write)) in
  Observe h c (ManagedServiceAccount cr) w =
  match snd verdict with
  | Some e =>
      ((ManagedServiceAccount cr,
        ({| ResourceExists := false; ResourceUpToDate := false |}, Some e)), w1)
  | None =>
      if fst verdict then
        ((ManagedServiceAccount cr,
          ({| ResourceExists := false; ResourceUpToDate := false |}, None)), w1)
      else if ObserveUpdateResource h cr (fst (fst lookup)) then
        ((ManagedServiceAccount cr,
          ({| ResourceExists := true; ResourceUpToDate := false |}, None)), w1)
      else
        match fst write with
        | Some e => ((ManagedServiceAccount cr1, (zeroObservation, Some e)), w2)
        | None =>
            ((ManagedServiceAccount cr1,
              ({| ResourceExists := true; ResourceUpToDate := true |}, None)), w2)
        end
  end.
Proof.
  unfold Observe, bind, ret, kubeStatusUpdate, callStore, callRemote; simpl.
  destruct (ExternalNameHelper h cr) as [name exists_]; simpl.
  destruct (serviceaccount.ServiceAccountByName _ _ _) as [[observe err] r]; simpl.
  destruct (ObserveCreateResource h cr err) as [[|] [e|]]; simpl; try reflexivity.
  destruct (ObserveUpdateResource h cr observe); simpl; [reflexivity|].
  destruct (client.StatusUpdate _ _ _) as [[e|] k1]; reflexivity.
Qed.

Lemma Delete_run (cr : v1alpha1.ServiceAccount) (w : World R K) :
  let cr1 := v1alpha1.SetConditions cr xpv1.Deleting in
  let write := client.StatusUpdate (kube c) cr1 (store w) in
  let w1 := afterStore w (snd write) (CallKubeStatusUpdate cr1 (fst write)) in
  let res := serviceaccount.ServiceAccountDelete (service c) (AtProviderID cr1) (remote w1) in
  let w2 := afterRemote w1 (snd res) (CallServiceAccountDelete (AtProviderID cr1) (fst res)) in
  Delete c (ManagedServiceAccount cr) w =
  match fst write with
  | Some e => ((ManagedServiceAccount cr1, Some e), w1)
  | None => ((ManagedServiceAccount cr1, fst res), w2)
  end.
Proof.
  unfold Delete, bind, ret, kubeStatusUpdate, callStore, callRemote, AtProviderID; simpl.
  destruct (client.StatusUpdate _ _ _) as [[e|] k1]; simpl; [reflexivity|].
  destruct (serviceaccount.ServiceAccountDelete _ _ _) as [[e|] r]; reflexivity.
Qed.

End Runs.

(** ** Connect *)

Lemma Connect_run {R K : Type} (pkg : Packages R K) (kubeClient : client.Client K)
  (tracker : Tracker K) (cr : v1alpha1.ServiceAccount) (w : World R K) :
  let track := Track tracker (ManagedServiceAccount cr) (store w) in
  let w1 := afterStore w (snd track) (CallTrack (fst track)) in
  let get := client.Get kubeClient (v1alpha1.ProviderConfigReference (v1alpha1.Spec cr)) (store w1) in
  let creds := CommonCredentialExtractor pkg
                 (CredentialsSource (fst get)) (CredentialsSelector (fst get)) (store w1) in
  let parts := Split (fst creds) ":"%char in
  let auth := Authenticate pkg (nth 0 parts "") (nth 1 parts "") (remote w1) in
  let w2 := afterRemote w1 (snd auth)
              (CallAuthenticate (nth 0 parts "") (nth 1 parts "") (fst auth)) in
  Connect pkg (setupConnector pkg kubeClient tracker) (ManagedServiceAccount cr) w =
  match fst track with
  | Some e => ((None, Some (errors_Wrap e errTrackPCUsage)), w1)
  | None =>
      match snd get with
      | Some e => ((None, Some (errors_Wrap e errGetPC)), w1)
      | None =>
          match snd creds with
          | Some e => ((None, Some (errors_Wrap e errGetCreds)), w1)
          | None =>
              if negb (Nat.eqb (List.length parts) 2) then
                ((None, Some (errors_Wrap (errors_New errAuthCredentials) errNewClient)), w1)
              else
                match fst auth with
                | Some e => ((None, Some (errors_Wrap e errNewClient)), w2)
                | None =>
                    ((Some {| service :=
                                NewClient pkg
                                  {| serviceaccount.APICredentials :=
                                       selectAPICredentials pkg (APICredentials (fst get)) |};
                              kube := kubeClient |}, None), w2)
                end
          end
      end
  end.
Proof.
  unfold Connect, setupConnector, createAndConvertClientFunc,
    bind, ret, callStore, callRemote, readStore; simpl.
  destruct (Track tracker _ _) as [[e|] k1]; simpl; [reflexivity|].
  destruct (client.Get kubeClient _ _) as [pc [e|]]; simpl; [reflexivity|].
  destruct (CommonCredentialExtractor pkg _ _ _) as [creds [e|]]; simpl; [reflexivity|].
  destruct (Nat.eqb (List.length (Split creds ":")) 2); simpl; [|reflexivity].
  destruct (Authenticate pkg _ _ _) as [[e|] r]; reflexivity.
Qed.

Lemma authenticateCalls_cons (identity passphrase : string) (res : option error)
  (t : list Call) :
  authenticateCalls (CallAuthenticate identity passphrase res :: t) <> authenticateCalls t.
Proof. unfold authenticateCalls. simpl. apply Nat.neq_succ_diag_l. Qed.

(** C9. Once the credential bytes are resolved, [Connect] fails with
    the error "invalid client credentials" of the format check (wrapped
    as every error of the client factory is), raised before any
    authentication call, exactly when the bytes do not split on ":"
    into two parts; as long as the authentication itself never fails
    with that message, the error alone tells it.  When the bytes split
    into [identity] and [passphrase], the one authentication call is
    made with that pair and its verdict decides the result. *)
Theorem connect_credential_format {R K : Type} (pkg : Packages R K)
  (kubeClient : client.Client K) (tracker : Tracker K)
  (cr : v1alpha1.ServiceAccount) (w : World R K) :
  let conn := setupConnector pkg kubeClient tracker in
  let track := Track tracker (ManagedServiceAccount cr) (store w) in
  let w1 := afterStore w (snd track) (CallTrack (fst track)) in
  let get := client.Get kubeClient (v1alpha1.ProviderConfigReference (v1alpha1.Spec cr)) (store w1) in
  let creds := CommonCredentialExtractor pkg
                 (CredentialsSource (fst get)) (CredentialsSelector (fst get)) (store w1) in
  let out := Connect pkg conn (ManagedServiceAccount cr) w in
  let invalid := Some (errors_Wrap (errors_New errAuthCredentials) errNewClient) in
  fst track = None -> snd get = None -> snd creds = None ->
  (snd (fst out) = invalid /\
   authenticateCalls (trace (snd out)) = authenticateCalls (trace w)
   <-> List.length (Split (fst creds) ":"%char) <> 2) /\
  ((forall identity passphrase e,
       fst (Authenticate pkg identity passphrase (remote w)) = Some e ->
       e <> errors_New errAuthCredentials) ->
   (snd (fst out) = invalid <-> List.length (Split (fst creds) ":"%char) <> 2)) /\
  (forall identity passphrase,
      Split (fst creds) ":"%char = [identity; passphrase] ->
      let auth := Authenticate pkg identity passphrase (remote w) in
      out =
      ((match fst auth with
        | Some e => (None, Some (errors_Wrap e errNewClient))
        | None =>
            (Some {| service :=
                       NewClient pkg
                         {| serviceaccount.APICredentials :=
                              selectAPICredentials pkg (APICredentials (fst get)) |};
                     kube := kubeClient |}, None)
        end),
       afterRemote w1 (snd auth) (CallAuthenticate identity passphrase (fst auth)))).
Proof.
  intros conn track w1 get creds out invalid Htrack Hget Hcreds.
  subst invalid out conn. rewrite Connect_run. cbv zeta.
  subst creds get w1 track.
  rewrite Htrack in Hget, Hcreds |- *. rewrite Hget, Hcreds.
  split; [|split].
  - destruct (Nat.eqb (List.length _) 2) eqn:Hlen; simpl.
    + apply Nat.eqb_eq in Hlen. split; [|intros Hne; contradiction].
      intros [_ Hcalls]. exfalso.
      destruct (fst (Authenticate pkg _ _ _));
        exact (authenticateCalls_cons _ _ _ _ Hcalls).
    + apply Nat.eqb_neq in Hlen. split; [intros _; exact Hlen|].
      intros _. split; reflexivity.
  - intros Hauth.
    destruct (Nat.eqb (List.length _) 2) eqn:Hlen; simpl.
    + apply Nat.eqb_eq in Hlen. split; [|intros Hne; contradiction].
      destruct (fst (Authenticate pkg _ _ _)) as [e|] eqn:He; simpl; [|discriminate].
      intros Heq. injection Heq as Heq.
      exfalso. exact (Hauth _ _ _ He Heq).
    + apply Nat.eqb_neq in Hlen. split; [intros _; exact Hlen | reflexivity].
  - intros identity passphrase Hsplit. rewrite Hsplit. simpl.
    destruct (fst (Authenticate pkg identity passphrase (remote w)));
      reflexivity.
Qed.

Lemma connect_credential_format_witness :
  let w := worldOf (remoteRejectingAuth "AuthenticationFailed")
             (storeOf svc1 "id:secret" []) in
  let w' := worldOf (remoteRejectingAuth "AuthenticationFailed")
              (storeOf svc1 "idsecret" []) in
  Connect fakePackages fakeConnector (ManagedServiceAccount svc1) w =
  ((None, Some (errors_Wrap "AuthenticationFailed" errNewClient)),
   afterRemote (afterStore w (snd (Track fakeTracker (ManagedServiceAccount svc1) (store w)))
                  (CallTrack None))
     (remote w) (CallAuthenticate "id" "secret" (Some "AuthenticationFailed"))) /\
  snd (fst (Connect fakePackages fakeConnector (ManagedServiceAccount svc1) w'))
    = Some (errors_Wrap (errors_New errAuthCredentials) errNewClient).
Proof.
  intros w w'. split.
  - exact (proj2 (proj2 (connect_credential_format fakePackages fakeKube fakeTracker svc1 w
                           eq_refl eq_refl eq_refl)) "id" "secret" eq_refl).
  - assert (Hauth : forall identity passphrase e,
               fst (Authenticate fakePackages identity passphrase (remote w')) = Some e ->
               e <> errors_New errAuthCredentials).
    { intros identity passphrase e H. injection H as <-. discriminate. }
    apply (proj2 (proj1 (proj2 (connect_credential_format fakePackages fakeKube fakeTracker
                                  svc1 w' eq_refl eq_refl eq_refl)) Hauth)).
    simpl. discriminate.
Defined.

(** ** A tick *)

(** From here on the operations are rewritten with the lemmas above. *)
Arguments Connect : simpl never.
Arguments Observe : simpl never.
Arguments Create : simpl never.
Arguments createUnlessImport : simpl never.
Arguments createPersist : simpl never.
Arguments Update : simpl never.
Arguments Delete : simpl never.
Arguments Tick : simpl never.
Arguments Reconcile : simpl never.

Lemma Reconcile_connected {R K : Type} (h : Helpers) (pkg : Packages R K)
  (conn : connector R K) (c : external R K) (mg : Managed) (w w1 : World R K) :
  Connect pkg conn mg w = ((Some c, None), w1) ->
  Reconcile h pkg conn mg w = Tick h c mg w1.
Proof. intros H. unfold Reconcile, bind. now rewrite H. Qed.

(** A tick on a ServiceAccount that is not marked for deletion starts
    with [Observe]. *)
Lemma Tick_observes {R K : Type} (h : Helpers) (c : external R K)
  (cr : v1alpha1.ServiceAccount) (w : World R K) :
  v1alpha1.Deleted (v1alpha1.Meta cr) = false ->
  Tick h c (ManagedServiceAccount cr) w =
  let '((mg, (observation, err)), w1) := Observe h c (ManagedServiceAccount cr) w in
  match err with
  | Some e => ((mg, (ActionNone, Some e)), w1)
  | None =>
      if negb (ResourceExists observation) then
        let '((mg, err), w2) := Create h c mg w1 in ((mg, (ActionCreate, err)), w2)
      else if negb (ResourceUpToDate observation) then
        let '((mg, err), w2) := Update c mg w1 in ((mg, (ActionUpdate, err)), w2)
      else ((mg, (ActionNoOp, None)), w1)
  end.
Proof.
  intros Hdel. unfold Tick, WasDeleted. rewrite Hdel. unfold bind, ret.
  destruct (Observe h c (ManagedServiceAccount cr) w) as [[mg [observation [e|]]] w1];
    [reflexivity|].
  destruct (ResourceExists observation); simpl.
  - destruct (ResourceUpToDate observation); simpl; [reflexivity|].
    destruct (Update c mg w1) as [[mg' err] w2]; reflexivity.
  - destruct (Create h c mg w1) as [[mg' err] w2]; reflexivity.
Qed.

(** C1. A resource that has an external name and whose lookup fails
    with [NotFound]: the tick ends with the error [RemoteObjectMissing];
    the lookup is its only call, so nothing is created, and the
    resource is left as it was. *)
Theorem out_of_band_deletion_surfaced {R K : Type} (pkg : Packages R K)
  (conn : connector R K) (c : external R K) (cr : v1alpha1.ServiceAccount)
  (w w1 : World R K) :
  Connect pkg conn (ManagedServiceAccount cr) w = ((Some c, None), w1) ->
  v1alpha1.Deleted (v1alpha1.Meta cr) = false ->
  ExternalNameOf cr <> "" ->
  snd (fst (serviceaccount.ServiceAccountByName (service c) (ExternalNameOf cr) (remote w1)))
    = Some NotFound ->
  let out := Reconcile specHelpers pkg conn (ManagedServiceAccount cr) w in
  fst out = (ManagedServiceAccount cr, (ActionNone, Some RemoteObjectMissing)) /\
  trace (snd out)
    = CallServiceAccountByName (ExternalNameOf cr) (Some NotFound) :: trace w1 /\
  createCalls (trace (snd out)) = createCalls (trace w1) /\
  store (snd out) = store w1.
Proof.
  intros Hconn Hdel Hname Hlookup out. subst out.
  rewrite (Reconcile_connected _ _ _ _ _ _ _ Hconn), (Tick_observes _ _ _ _ Hdel).
  rewrite Observe_run. cbv zeta.
  unfold ExternalNameOf in *.
  assert (Hh : ExternalNameHelper specHelpers cr
               = (v1alpha1.ExternalName (v1alpha1.Meta cr), true)).
  { simpl. unfold specExternalNameHelper.
    destruct (String.eqb _ "") eqn:E; [|reflexivity].
    apply String.eqb_eq in E. contradiction. }
  rewrite Hh. simpl fst. rewrite Hlookup.
  simpl. unfold specExternalNameHelper.
  destruct (String.eqb _ "") eqn:E; [apply String.eqb_eq in E; contradiction|].
  simpl. repeat split; reflexivity.
Qed.

Lemma out_of_band_deletion_surfaced_witness :
  let w := worldOf (remoteOf []) (storeOf svc1Created "id:secret" []) in
  let out := Reconcile specHelpers fakePackages fakeConnector
               (ManagedServiceAccount svc1Created) w in
  fst out = (ManagedServiceAccount svc1Created, (ActionNone, Some RemoteObjectMissing)) /\
  createCalls (trace (snd out)) = 0.
Proof.
  intros w out.
  destruct (out_of_band_deletion_surfaced fakePackages fakeConnector fakeExternal
              svc1Created w
              (snd (Connect fakePackages fakeConnector (ManagedServiceAccount svc1Created) w))
              eq_refl eq_refl) as (H1 & _ & H3 & _).
  - discriminate.
  - reflexivity.
  - split; [exact H1 | exact H3].
Defined.

(** C7. [Update] leaves the resource, its conditions included, and the
    API server as they were; and in a tick whose action is the update,
    the resource and the API server end as they started: no condition
    is set in that tick. *)
Theorem update_sets_no_condition {R K : Type} (h : Helpers) (c : external R K)
  (mg : Managed) (w : World R K) :
  (fst (fst (Update c mg w)) = mg /\ store (snd (Update c mg w)) = store w) /\
  (forall mg' err w',
      Tick h c mg w = ((mg', (ActionUpdate, err)), w') ->
      mg' = mg /\ store w' = store w).
Proof.
  split.
  - destruct mg as [cr|a|kind]; [rewrite Update_run|..]; split; reflexivity.
  - intros mg' err w' Htick.
    destruct mg as [cr|a|kind]; [|discriminate Htick..].
    destruct (v1alpha1.Deleted (v1alpha1.Meta cr)) eqn:Hdel.
    + unfold Tick, WasDeleted in Htick. rewrite Hdel in Htick.
      unfold bind, ret in Htick.
      destruct (Delete c (ManagedServiceAccount cr) w) as [[mg1 err1] w1].
      discriminate Htick.
    + rewrite (Tick_observes _ _ _ _ Hdel), Observe_run in Htick. cbv zeta in Htick.
      destruct (snd (ObserveCreateResource h cr _)) as [e|]; [discriminate Htick|].
      destruct (fst (ObserveCreateResource h cr _)).
      { simpl in Htick. destruct (Create h c _ _) as [[mg1 err1] w2].
        discriminate Htick. }
      destruct (ObserveUpdateResource h cr _).
      { simpl in Htick. rewrite Update_run in Htick. cbv zeta in Htick.
        injection Htick as <- _ <-. split; reflexivity. }
      destruct (fst (client.StatusUpdate (kube c) _ _)); discriminate Htick.
Qed.

Lemma update_sets_no_condition_witness :
  let cr := newServiceAccount "svc-1" "svc-1" "billing" "sa-svc-1" [xpv1.Creating] false in
  let w := worldOf (remoteOf [account1 "payments"]) (storeOf cr "id:secret" []) in
  let out := Tick specHelpers fakeExternal (ManagedServiceAccount cr) w in
  snd (fst out) = (ActionUpdate, None) /\
  fst (fst out) = ManagedServiceAccount cr /\
  store (snd out) = store w.
Proof.
  intros cr w out. split; [reflexivity|].
  exact (proj2 (update_sets_no_condition specHelpers fakeExternal
                  (ManagedServiceAccount cr) w)
           (fst (fst out)) None (snd out) eq_refl).
Defined.

(** ** Creation *)

(** The calls of a run, read off its last world: [t] is [base] with
    some calls put in front. *)
Ltac prefix_of t base :=
  lazymatch t with
  | base => constr:(@nil Call)
  | ?a :: ?rest => let p := prefix_of rest base in constr:(a :: p)
  end.

Ltac pin_calls Hnew :=
  cbn [trace afterStore afterRemote] in Hnew;
  lazymatch type of Hnew with
  | ?t = (?new ++ ?base)%list =>
      let p := prefix_of t base in
      let E := fresh "E" in
      assert (E : new = p) by (apply (app_inv_tail base); symmetry; exact Hnew);
      subst new; clear Hnew
  end.

(** The term whose value decides how the run [t] goes on. *)
Ltac head_scrutinee t :=
  lazymatch t with
  | match ?x with Some _ => _ | None => _ end => head_scrutinee x
  | (if ?x then _ else _) => head_scrutinee x
  | (let (_, _) := ?x in _) => head_scrutinee x
  | _ => t
  end.

(** One step of the run kept in [Hrun]: the operation at its head is
    rewritten with its lemma, a call or verdict at its head is split
    into its cases. *)
Ltac step_run Hrun :=
  cbv zeta in Hrun;
  cbn [fst snd negb ResourceExists ResourceUpToDate] in Hrun;
  lazymatch type of Hrun with
  | ?lhs = _ =>
      let s := head_scrutinee lhs in
      lazymatch s with
      | (_, _) => fail
      | Observe _ _ (ManagedServiceAccount _) _ => rewrite Observe_run in Hrun
      | Create _ _ (ManagedServiceAccount _) _ => rewrite Create_run in Hrun
      | createUnlessImport _ _ _ false _ => rewrite createUnlessImport_run in Hrun
      | createPersist _ _ _ _ => rewrite createPersist_run in Hrun
      | Update _ (ManagedServiceAccount _) _ => rewrite Update_run in Hrun
      | Delete _ (ManagedServiceAccount _) _ => rewrite Delete_run in Hrun
      | _ => let E := fresh "E" in destruct s eqn:E
      end
  end.

Ltac split_run Hrun := repeat step_run Hrun.

(** C5 (as amended). A tick in which the remote creation is rejected
    ends there with the error of the creation: the rejected call is the
    last call of the tick, so no later step is applied; the identifier
    and the external name of the resource are what they were.  The
    [Creating] condition, which [Create] sets and writes to the API
    server before the remote call, stays. *)
Theorem create_rejected_aborts {R K : Type} (h : Helpers) (pkg : Packages R K)
  (conn : connector R K) (c : external R K) (cr : v1alpha1.ServiceAccount)
  (w w1 w' : World R K) (mg' : Managed) (res : Action * option error)
  (new : list Call) (name description : string)
  (out : serviceaccount.ServiceAccount) (e : error) :
  Connect pkg conn (ManagedServiceAccount cr) w = ((Some c, None), w1) ->
  v1alpha1.Deleted (v1alpha1.Meta cr) = false ->
  Reconcile h pkg conn (ManagedServiceAccount cr) w = ((mg', res), w') ->
  trace w' = (new ++ trace w1)%list ->
  In (CallServiceAccountCreate name description out (Some e)) new ->
  res = (ActionCreate, Some e) /\
  hd_error new = Some (CallServiceAccountCreate name description out (Some e)) /\
  In (CallKubeStatusUpdate (v1alpha1.SetConditions cr xpv1.Creating) None) new /\
  mg' = ManagedServiceAccount (v1alpha1.SetConditions cr xpv1.Creating) /\
  managedID mg' = Some (AtProviderID cr) /\
  (forall cr', mg' = ManagedServiceAccount cr' ->
     ExternalNameOf cr' = ExternalNameOf cr /\
     v1alpha1.Conditions (v1alpha1.Status cr')
       = xpv1.SetCondition (v1alpha1.Conditions (v1alpha1.Status cr)) xpv1.Creating).
Proof.
  intros Hconn Hdel Hrun Hnew Hrej.
  rewrite (Reconcile_connected _ _ _ _ _ _ _ Hconn), (Tick_observes _ _ _ _ Hdel) in Hrun.
  split_run Hrun; injection Hrun as <- <- <-; pin_calls Hnew;
    simpl in Hrej;
    repeat (destruct Hrej as [Hrej|Hrej]; [try discriminate Hrej|]);
    try contradiction;
    injection Hrej as <- <- <- <-;
    (split; [reflexivity|]); (split; [reflexivity|]);
    (split; [simpl; tauto|]); (split; [reflexivity|]); (split; [reflexivity|]);
    intros cr' Hcr'; injection Hcr' as <-; split; reflexivity.
Qed.

Lemma create_rejected_aborts_witness :
  let w := worldOf (remoteRejectingCreate "CreateError") (storeOf svc1 "id:secret" []) in
  let out := Reconcile specHelpers fakePackages fakeConnector (ManagedServiceAccount svc1) w in
  snd (fst out) = (ActionCreate, Some "CreateError") /\
  fst (fst out) = ManagedServiceAccount (v1alpha1.SetConditions svc1 xpv1.Creating) /\
  managedID (fst (fst out)) = Some "".
Proof.
  intros w out.
  destruct (create_rejected_aborts specHelpers fakePackages fakeConnector fakeExternal
              svc1 w
              (snd (Connect fakePackages fakeConnector (ManagedServiceAccount svc1) w))
              (snd out) (fst (fst out)) (snd (fst out))
              [CallServiceAccountCreate "svc-1" "payments" serviceaccount.zero
                 (Some "CreateError");
               CallKubeStatusUpdate (v1alpha1.SetConditions svc1 xpv1.Creating) None;
               CallServiceAccountByName "svc-1" (Some NotFound)]
              "svc-1" "payments" serviceaccount.zero "CreateError"
              eq_refl eq_refl eq_refl eq_refl (or_introl eq_refl))
    as (H1 & _ & _ & H4 & H5 & _).
  repeat split; assumption.
Defined.

(** C5, the claim as stated: with a resource that has no condition yet
    and a remote system that rejects the creation, the tick ends with
    the creation's error, and the [Creating] condition is on the
    resource and in the API server, where there was none. *)
Lemma create_rejected_conditions_changed :
  let w := worldOf (remoteRejectingCreate "CreateError") (storeOf svc1 "id:secret" []) in
  let out := Reconcile specHelpers fakePackages fakeConnector (ManagedServiceAccount svc1) w in
  snd (fst out) = (ActionCreate, Some "CreateError") /\
  v1alpha1.Conditions (v1alpha1.Status svc1) = [] /\
  v1alpha1.Conditions (v1alpha1.Status (object (store w))) = [] /\
  fst (fst out) = ManagedServiceAccount (v1alpha1.SetConditions svc1 xpv1.Creating) /\
  v1alpha1.Conditions (v1alpha1.Status (object (store (snd out)))) = [xpv1.Creating] /\
  ~ (fst (fst out) = ManagedServiceAccount svc1 /\
     object (store (snd out)) = object (store w)).
Proof.
  repeat split; try reflexivity. intros [H _]. discriminate H.
Qed.

(** C6 (as amended). A tick that created the remote object and then
    ends with an error created it in its [Create] step, and the error
    is the one the API server gave for the last call of the tick, the
    write of the object or of its status, returned as it is; the
    resource in memory carries the new identifier and the external
    name. *)
Theorem store_error_after_create_passed_through {R K : Type} (h : Helpers)
  (pkg : Packages R K) (conn : connector R K) (c : external R K)
  (cr : v1alpha1.ServiceAccount) (w w1 w' : World R K) (mg' : Managed)
  (act : Action) (e : error) (new : list Call) (name description : string)
  (out : serviceaccount.ServiceAccount) :
  Connect pkg conn (ManagedServiceAccount cr) w = ((Some c, None), w1) ->
  v1alpha1.Deleted (v1alpha1.Meta cr) = false ->
  Reconcile h pkg conn (ManagedServiceAccount cr) w = ((mg', (act, Some e)), w') ->
  trace w' = (new ++ trace w1)%list ->
  In (CallServiceAccountCreate name description out None) new ->
  act = ActionCreate /\
  exists cr',
    mg' = ManagedServiceAccount cr' /\
    AtProviderID cr' = serviceaccount.ID out /\
    ExternalNameOf cr' = name /\
    (hd_error new = Some (CallKubeUpdate cr' (Some e)) \/
     hd_error new = Some (CallKubeStatusUpdate cr' (Some e))).
Proof.
  intros Hconn Hdel Hrun Hnew Hmade.
  rewrite (Reconcile_connected _ _ _ _ _ _ _ Hconn), (Tick_observes _ _ _ _ Hdel) in Hrun.
  split_run Hrun; try discriminate Hrun;
    injection Hrun as Hmg Hact Herr Hw; subst mg' act w'; pin_calls Hnew;
    simpl in Hmade;
    repeat (destruct Hmade as [Hmade|Hmade]; [try discriminate Hmade|]);
    try contradiction;
    injection Hmade as <- <- <-;
    try (injection Herr as <-); try rewrite Herr;
    (split; [reflexivity|]); eexists; (split; [reflexivity|]);
    (split; [reflexivity|]); (split; [reflexivity|]); simpl; tauto.
Qed.

Lemma store_error_after_create_passed_through_witness :
  let w := worldOf (remoteOf []) (storeOf svc1 "id:secret" [None; None; Some "timeout"]) in
  let out := Reconcile specHelpers fakePackages fakeConnector (ManagedServiceAccount svc1) w in
  snd (fst out) = (ActionCreate, Some "timeout") /\
  managedID (fst (fst out)) = Some "sa-svc-1" /\
  hd_error (trace (snd out)) = Some (CallKubeStatusUpdate svc1Created (Some "timeout")).
Proof.
  intros w out.
  destruct (store_error_after_create_passed_through specHelpers fakePackages
              fakeConnector fakeExternal svc1 w
              (snd (Connect fakePackages fakeConnector (ManagedServiceAccount svc1) w))
              (snd out) (fst (fst out)) ActionCreate "timeout"
              [CallKubeStatusUpdate svc1Created (Some "timeout");
               CallKubeUpdate svc1Created None;
               CallServiceAccountCreate "svc-1" "payments" (account1 "payments") None;
               CallKubeStatusUpdate (v1alpha1.SetConditions svc1 xpv1.Creating) None;
               CallServiceAccountByName "svc-1" (Some NotFound)]
              "svc-1" "payments" (account1 "payments")
              eq_refl eq_refl eq_refl eq_refl (or_intror (or_intror (or_introl eq_refl))))
    as (_ & cr' & Hmg & Hid & _ & _).
  split; [reflexivity|]. split; [|reflexivity].
  rewrite Hmg. simpl. now rewrite Hid.
Defined.

(** C6, the claim as stated: a tick whose remote creation is rejected
    and a tick whose remote creation succeeds and whose last status
    write fails return the same error when the remote system and the
    API server fail alike; nothing in the returned error tells them
    apart. *)
Lemma status_write_error_not_told_apart :
  let wa := worldOf (remoteRejectingCreate "timeout") (storeOf svc1 "id:secret" []) in
  let wb := worldOf (remoteOf []) (storeOf svc1 "id:secret" [None; None; Some "timeout"]) in
  let a := Reconcile specHelpers fakePackages fakeConnector (ManagedServiceAccount svc1) wa in
  let b := Reconcile specHelpers fakePackages fakeConnector (ManagedServiceAccount svc1) wb in
  hd_error (trace (snd a))
    = Some (CallServiceAccountCreate "svc-1" "payments" serviceaccount.zero (Some "timeout")) /\
  accounts (remote (snd a)) = [] /\
  hd_error (trace (snd b)) = Some (CallKubeStatusUpdate svc1Created (Some "timeout")) /\
  accounts (remote (snd b)) = [account1 "payments"] /\
  snd (fst a) = (ActionCreate, Some "timeout") /\
  snd (fst b) = (ActionCreate, Some "timeout") /\
  ~ (exists isStatusWriteError : error -> bool,
        (forall act e, snd (fst b) = (act, Some e) -> isStatusWriteError e = true) /\
        (forall act e, snd (fst a) = (act, Some e) -> isStatusWriteError e = false)).
Proof.
  repeat split; try reflexivity.
  intros (f & Hb & Ha).
  specialize (Hb ActionCreate "timeout" eq_refl).
  specialize (Ha ActionCreate "timeout" eq_refl).
  congruence.
Qed.

(** C3. A resource for which the helpers report no external name, whose
    lookup fails and is classified as asking for a creation: once the
    API server has taken the [Creating] status, the tick makes exactly
    one remote creation; and a tick that completes has made it with
    the candidate name and the declared description, the resource
    carries the identifier that call returned and the candidate name
    as its external name, and was written so to the API server, object
    and status. *)
Theorem first_time_creation {R K : Type} (h : Helpers) (pkg : Packages R K)
  (conn : connector R K) (c : external R K) (cr : v1alpha1.ServiceAccount)
  (w w1 : World R K) (name : string) (e : error) :
  Connect pkg conn (ManagedServiceAccount cr) w = ((Some c, None), w1) ->
  v1alpha1.Deleted (v1alpha1.Meta cr) = false ->
  ignoresConditions h ->
  ExternalNameHelper h cr = (name, false) ->
  snd (fst (serviceaccount.ServiceAccountByName (service c) name (remote w1))) = Some e ->
  ObserveCreateResource h cr (Some e) = (true, None) ->
  let out := Reconcile h pkg conn (ManagedServiceAccount cr) w in
  fst (snd (fst out)) = ActionCreate /\
  (fst (client.StatusUpdate (kube c) (v1alpha1.SetConditions cr xpv1.Creating) (store w1))
     = None ->
   createCalls (trace (snd out)) = S (createCalls (trace w1))) /\
  (snd (snd (fst out)) = None ->
   createCalls (trace (snd out)) = S (createCalls (trace w1)) /\
   exists created cr',
     fst (fst out) = ManagedServiceAccount cr' /\
     AtProviderID cr' = serviceaccount.ID created /\
     ExternalNameOf cr' = name /\
     trace (snd out) =
       CallKubeStatusUpdate cr' None
       :: CallKubeUpdate cr' None
       :: CallServiceAccountCreate name (DescriptionOf cr) created None
       :: CallKubeStatusUpdate (v1alpha1.SetConditions cr xpv1.Creating) None
       :: CallServiceAccountByName name (Some e)
       :: trace w1).
Proof.
  intros Hconn Hdel Hign Hname Hlookup Hverdict out. subst out.
  destruct (Reconcile h pkg conn (ManagedServiceAccount cr) w)
    as [[mg' [act err]] w'] eqn:Hrun.
  rewrite (Reconcile_connected _ _ _ _ _ _ _ Hconn), (Tick_observes _ _ _ _ Hdel),
    Observe_run in Hrun.
  cbv zeta in Hrun. rewrite Hname in Hrun. cbn [fst snd] in Hrun.
  rewrite Hlookup, Hverdict in Hrun.
  cbn [fst snd negb ResourceExists] in Hrun.
  rewrite Create_run in Hrun. cbv zeta in Hrun.
  rewrite (proj1 (Hign cr xpv1.Creating)), Hname in Hrun.
  cbn [fst snd store afterRemote] in Hrun |- *.
  split_run Hrun; injection Hrun as Hmg Hact Herr Hw; subst mg' act err w';
    cbn [fst snd];
    (split; [reflexivity|]); (split; [try discriminate; intros _; reflexivity|]);
    intros Hdone; try discriminate Hdone; (split; [reflexivity|]);
    eexists; eexists; (split; [reflexivity|]); (split; [reflexivity|]);
    (split; [reflexivity|]);
    cbn [trace afterStore afterRemote]; rewrite Hdone; reflexivity.
Qed.

Lemma first_time_creation_witness :
  let w := worldOf (remoteOf []) (storeOf svc1 "id:secret" []) in
  let out := Reconcile specHelpers fakePackages fakeConnector (ManagedServiceAccount svc1) w in
  snd (fst out) = (ActionCreate, None) /\
  createCalls (trace (snd out)) = 1 /\
  fst (fst out) = ManagedServiceAccount svc1Created /\
  object (store (snd out)) = svc1Created.
Proof.
  intros w out.
  destruct (first_time_creation specHelpers fakePackages fakeConnector fakeExternal
              svc1 w
              (snd (Connect fakePackages fakeConnector (ManagedServiceAccount svc1) w))
              "svc-1" NotFound eq_refl eq_refl)
    as (_ & Hcount & _).
  - intros cr cond. repeat split.
  - reflexivity.
  - reflexivity.
  - reflexivity.
  - split; [reflexivity|]. split; [exact (Hcount eq_refl)|]. split; reflexivity.
Defined.

(** ** A resource in line with the remote object *)

Lemma converged_SetConditions {R K : Type} (h : Helpers) (c : external R K)
  (cr : v1alpha1.ServiceAccount) (cond : xpv1.Condition) :
  ignoresConditions h -> converged h c cr ->
  converged h c (v1alpha1.SetConditions cr cond).
Proof.
  intros Hign (Hdel & Hcreate & Hlookup).
  destruct (Hign cr cond) as (Hname & Hc & Hu).
  split; [exact Hdel|]. split; [now rewrite Hc|].
  intros r. cbv zeta. rewrite Hname, Hu. exact (Hlookup r).
Qed.

(** With the spec's helpers the resource is in line with the remote
    object when the lookup finds an object with the declared
    description. *)
Lemma converged_specHelpers {R K : Type} (c : external R K)
  (cr : v1alpha1.ServiceAccount) :
  v1alpha1.Deleted (v1alpha1.Meta cr) = false ->
  (forall r : R,
      let lookup :=
        fst (serviceaccount.ServiceAccountByName (service c)
               (fst (specExternalNameHelper cr)) r) in
      snd lookup = None /\ serviceaccount.Description (fst lookup) = DescriptionOf cr) ->
  converged specHelpers c cr.
Proof.
  intros Hdel Hlookup. split; [exact Hdel|]. split; [reflexivity|].
  intros r. destruct (Hlookup r) as [Herr Hdesc]. cbv zeta. split; [exact Herr|].
  simpl. unfold specObserveUpdateResource. simpl in Hdesc. rewrite Hdesc.
  unfold DescriptionOf. now rewrite String.eqb_refl.
Qed.

Lemma ignoresConditions_specHelpers : ignoresConditions specHelpers.
Proof. intros cr cond. repeat split. Qed.

(** Calls that are no mutation leave the counts of creations, updates
    and deletions as they are. *)
Lemma counts_unchanged (new base : list Call) :
  Forall (fun call => isMutation call = false) new ->
  createCalls (new ++ base) = createCalls base /\
  updateCalls (new ++ base) = updateCalls base /\
  deleteCalls (new ++ base) = deleteCalls base.
Proof.
  unfold createCalls, updateCalls, deleteCalls.
  induction 1 as [|call new Hcall _ IH]; [repeat split|].
  destruct IH as (IHc & IHu & IHd).
  destruct call; try discriminate Hcall; simpl; repeat split; assumption.
Qed.

(** One tick on such a resource: the lookup and the status write are
    its calls, and the resource ends with the [Available] condition. *)
Lemma Tick_converged {R K : Type} (h : Helpers) (c : external R K)
  (cr : v1alpha1.ServiceAccount) (w : World R K) :
  converged h c cr -> statusWritesSucceed c ->
  exists w' new,
    Tick h c (ManagedServiceAccount cr) w
    = ((ManagedServiceAccount (v1alpha1.SetConditions cr xpv1.Available),
        (ActionNoOp, None)), w') /\
    Observe h c (ManagedServiceAccount cr) w
    = ((ManagedServiceAccount (v1alpha1.SetConditions cr xpv1.Available),
        ({| ResourceExists := true; ResourceUpToDate := true |}, None)), w') /\
    trace w' = (new ++ trace w)%list /\
    Forall (fun call => isMutation call = false) new.
Proof.
  intros (Hdel & Hcreate & Hlookup) Hwrites.
  destruct (Hlookup (remote w)) as [Herr Hupdate]. cbv zeta in Herr, Hupdate.
  rewrite (Tick_observes _ _ _ _ Hdel), Observe_run. cbv zeta.
  rewrite Herr, Hcreate. cbn [fst snd]. rewrite Hupdate, Hwrites.
  cbn [negb ResourceExists ResourceUpToDate].
  eexists. eexists ([_; _]). split; [reflexivity|]. split; [reflexivity|].
  split; [reflexivity|]. repeat constructor.
Qed.

Lemma Ticks_converged {R K : Type} (h : Helpers) (c : external R K) (n : nat) :
  ignoresConditions h -> statusWritesSucceed c ->
  forall (cr : v1alpha1.ServiceAccount) (w : World R K),
    converged h c cr ->
    exists w' new,
      Ticks h (S n) c (ManagedServiceAccount cr) w
      = ((ManagedServiceAccount (v1alpha1.SetConditions cr xpv1.Available),
          repeat (ActionNoOp, None) (S n)), w') /\
      trace w' = (new ++ trace w)%list /\
      Forall (fun call => isMutation call = false) new.
Proof.
  intros Hign Hwrites. induction n as [|n IH]; intros cr w Hcr.
  - destruct (Tick_converged h c cr w Hcr Hwrites) as (w' & new & Htick & _ & Hnew).
    exists w', new. split; [|exact Hnew].
    simpl. unfold bind, ret. now rewrite Htick.
  - destruct (Tick_converged h c cr w Hcr Hwrites)
      as (w1 & new1 & Htick & _ & Htrace1 & Hnew1).
    destruct (IH (v1alpha1.SetConditions cr xpv1.Available) w1
                (converged_SetConditions h c cr _ Hign Hcr))
      as (w' & new & Hticks & Htrace & Hnew).
    exists w', (new ++ new1)%list. split; [|split].
    + change (Ticks h (S (S n)) c (ManagedServiceAccount cr) w)
        with (bind (Tick h c (ManagedServiceAccount cr))
                (fun x => match x with
                          | (mg, res) =>
                              bind (Ticks h (S n) c mg)
                                (fun y => match y with
                                          | (mg, rest) => ret (mg, res :: rest)
                                          end)
                          end) w).
      unfold bind at 1. rewrite Htick. unfold bind at 1. rewrite Hticks.
      unfold ret. now rewrite SetConditions_idempotent.
    + now rewrite Htrace, Htrace1, app_assoc.
    + apply Forall_app. split; assumption.
Qed.

(** C4. A resource in line with the remote object, with an API server
    that takes the status writes: [Observe] reports it as existing and
    up to date; every tick, the first and each one after it, chooses no
    action and makes no creation, update or deletion; and the resource
    carries the condition [Available], which is [Ready] with status
    [True]. *)
Theorem idempotent_noop {R K : Type} (h : Helpers) (c : external R K)
  (cr : v1alpha1.ServiceAccount) (n : nat) (w : World R K) :
  ignoresConditions h ->
  converged h c cr ->
  statusWritesSucceed c ->
  let first := Observe h c (ManagedServiceAccount cr) w in
  let out := Ticks h (S n) c (ManagedServiceAccount cr) w in
  fst first = (ManagedServiceAccount (v1alpha1.SetConditions cr xpv1.Available),
               ({| ResourceExists := true; ResourceUpToDate := true |}, None)) /\
  snd (fst out) = repeat (ActionNoOp, None) (S n) /\
  fst (fst out) = ManagedServiceAccount (v1alpha1.SetConditions cr xpv1.Available) /\
  ReadyCondition (v1alpha1.SetConditions cr xpv1.Available) = xpv1.Available /\
  xpv1.Status xpv1.Available = xpv1.ConditionTrue /\
  createCalls (trace (snd out)) = createCalls (trace w) /\
  updateCalls (trace (snd out)) = updateCalls (trace w) /\
  deleteCalls (trace (snd out)) = deleteCalls (trace w).
Proof.
  intros Hign Hcr Hwrites first out.
  destruct (Tick_converged h c cr w Hcr Hwrites) as (w1 & new1 & _ & Hobserve & _).
  destruct (Ticks_converged h c n Hign Hwrites cr w Hcr)
    as (w' & new & Hticks & Htrace & Hnew).
  subst first out. rewrite Hobserve, Hticks. cbn [fst snd].
  split; [reflexivity|]. split; [reflexivity|]. split; [reflexivity|].
  split; [now apply Ready_SetConditions|]. split; [reflexivity|].
  rewrite Htrace. now apply counts_unchanged.
Qed.

Lemma idempotent_noop_witness :
  let c := steadyExternal (account1 "payments") in
  let w := {| remote := tt; store := tt; trace := [] |} in
  let out := Ticks specHelpers 3 c (ManagedServiceAccount svc1Created) w in
  snd (fst out) = [(ActionNoOp, None); (ActionNoOp, None); (ActionNoOp, None)] /\
  fst (fst out)
    = ManagedServiceAccount (v1alpha1.SetConditions svc1Created xpv1.Available) /\
  createCalls (trace (snd out)) = 0 /\
  updateCalls (trace (snd out)) = 0 /\
  deleteCalls (trace (snd out)) = 0.
Proof.
  intros c w out.
  destruct (idempotent_noop specHelpers c svc1Created 2 w) as (_ & H2 & H3 & _ & _ & H6).
  - intros cr cond. repeat split.
  - split; [reflexivity|]. split; [reflexivity|]. intros r. split; reflexivity.
  - intros cr k. reflexivity.
  - split; [exact H2|]. split; [exact H3|]. exact H6.
Defined.

(** ** Import *)

(** C2, the claim as stated: the resource of the example has no
    external name and the remote system has an object under its name;
    the tick creates nothing, and the identifier of the resource is
    still empty, not the one of the object found. *)
Lemma import_without_external_name_adopts_nothing :
  let w := worldOf (remoteOf [account1 "payments"]) (storeOf svc1 "id:secret" []) in
  let out := Reconcile specHelpers fakePackages fakeConnector (ManagedServiceAccount svc1) w in
  ExternalNameOf svc1 = "" /\
  fst (serviceaccount.ServiceAccountByName fakeClient "svc-1" (remote w))
    = (account1 "payments", None) /\
  snd (fst out) = (ActionNoOp, None) /\
  createCalls (trace (snd out)) = 0 /\
  managedID (fst (fst out)) = Some "" /\
  ~ (createCalls (trace (snd out)) = 0 /\
     managedID (fst (fst out)) = Some (serviceaccount.ID (account1 "payments"))).
Proof.
  repeat split; try reflexivity. intros [_ H]. discriminate H.
Qed.

(** C2 (as amended). For a resource the helpers see without an external
    name: a tick whose lookup succeeds, the helpers asking for no
    creation, makes no remote creation; and whatever the helpers
    answer, a tick that makes no remote creation leaves the identifier
    of the resource as it was.  The identifier of the object found is
    adopted by [Create], for a resource that has an external name: when
    the lookup by that name succeeds and makes the creation an import,
    [Create] makes no remote creation and sets the identifier to the
    one of the object found. *)
Theorem import_adoption {R K : Type} (h : Helpers) (c : external R K)
  (cr : v1alpha1.ServiceAccount) (w : World R K) :
  (forall pkg conn w0,
      Connect pkg conn (ManagedServiceAccount cr) w0 = ((Some c, None), w) ->
      v1alpha1.Deleted (v1alpha1.Meta cr) = false ->
      snd (ExternalNameHelper h (v1alpha1.SetConditions cr xpv1.Creating)) = false ->
      let out := Reconcile h pkg conn (ManagedServiceAccount cr) w0 in
      (snd (fst (serviceaccount.ServiceAccountByName (service c)
                   (fst (ExternalNameHelper h cr)) (remote w))) = None ->
       ObserveCreateResource h cr None = (false, None) ->
       createCalls (trace (snd out)) = createCalls (trace w)) /\
      (createCalls (trace (snd out)) = createCalls (trace w) ->
       managedID (fst (fst out)) = Some (AtProviderID cr))) /\
  (forall name,
      ExternalNameHelper h (v1alpha1.SetConditions cr xpv1.Creating) = (name, true) ->
      fst (client.StatusUpdate (kube c) (v1alpha1.SetConditions cr xpv1.Creating) (store w)) = None ->
      snd (fst (serviceaccount.ServiceAccountByName (service c) name (remote w))) = None ->
      CreateResourceIsImport h None = (true, None) ->
      let out := Create h c (ManagedServiceAccount cr) w in
      createCalls (trace (snd out)) = createCalls (trace w) /\
      managedID (fst (fst out))
        = Some (serviceaccount.ID
                  (fst (fst (serviceaccount.ServiceAccountByName (service c) name
                               (remote w)))))).
Proof.
  split.
  - intros pkg conn w0 Hconn Hdel Hno out. subst out.
    rewrite (Reconcile_connected _ _ _ _ _ _ _ Hconn), (Tick_observes _ _ _ _ Hdel).
    split.
    + intros Hlookup Hverdict.
      rewrite Observe_run. cbv zeta. rewrite Hlookup, Hverdict. cbn [fst snd].
      destruct (ObserveUpdateResource h cr _).
      * cbn [negb ResourceExists ResourceUpToDate]. rewrite Update_run. reflexivity.
      * destruct (fst (client.StatusUpdate (kube c) _ _)); reflexivity.
    + destruct (let '(mg, (observation, err), w1) :=
                  Observe h c (ManagedServiceAccount cr) w in _) as [[mg' res] w'] eqn:Hrun.
      cbn [fst snd]. intros Hcount.
      split_run Hrun; try congruence; injection Hrun as <- <- <-;
        try reflexivity;
        cbn [trace afterStore afterRemote] in Hcount;
        unfold createCalls in Hcount; simpl in Hcount;
        exfalso; exact (Nat.neq_succ_diag_l _ Hcount).
  - intros name Hname Hwrite Hlookup Himport out. subst out.
    rewrite Create_run. cbv zeta. rewrite Hwrite, Hname. cbn [fst snd].
    cbn [remote afterStore]. rewrite Hlookup, Himport. cbn [fst snd].
    rewrite createPersist_run. cbv zeta.
    destruct (fst (client.Update (kube c) _ _)); split; reflexivity.
Qed.

Lemma import_adoption_witness :
  let w := worldOf (remoteOf [account1 "payments"]) (storeOf svc1 "id:secret" []) in
  let out := Reconcile specHelpers fakePackages fakeConnector (ManagedServiceAccount svc1) w in
  let wE := worldOf (remoteOf [account1 "payments"]) (storeOf svc1Named "id:secret" []) in
  let outE := Create specHelpers fakeExternal (ManagedServiceAccount svc1Named) wE in
  createCalls (trace (snd out)) = 0 /\
  managedID (fst (fst out)) = Some "" /\
  createCalls (trace (snd outE)) = 0 /\
  managedID (fst (fst outE)) = Some "sa-svc-1".
Proof.
  intros w out wE outE.
  destruct (proj1 (import_adoption specHelpers fakeExternal svc1
                     (snd (Connect fakePackages fakeConnector (ManagedServiceAccount svc1) w)))
              fakePackages fakeConnector w eq_refl eq_refl eq_refl) as [H1 H2].
  destruct (proj2 (import_adoption specHelpers fakeExternal svc1Named wE)
              "svc-1" eq_refl eq_refl eq_refl eq_refl) as [H3 H4].
  split; [exact (H1 eq_refl eq_refl)|]. split; [exact (H2 (H1 eq_refl eq_refl))|].
  split; [exact H3 | exact H4].
Defined.

(** ** Deletion *)

Lemma existsb_filter_negb {A : Type} (p : A -> bool) (l : list A) :
  existsb p (filter (fun a => negb (p a)) l) = false.
Proof.
  induction l as [|a l IH]; simpl; [reflexivity|].
  destruct (p a) eqn:E; simpl; [exact IH|]. now rewrite E.
Qed.

(** The remote system of the spec: after a deletion the object is
    absent, whether it was there or not. *)
Lemma fakeClient_delete (id : string) (r : FakeRemote) :
  deleteFault r = None ->
  let res := serviceaccount.ServiceAccountDelete fakeClient id r in
  fst res = None /\ present id (snd res) = false /\
  deleteFault (snd res) = None /\ authFault (snd res) = authFault r.
Proof.
  intros Hfault. simpl. rewrite Hfault. simpl.
  repeat split; try assumption. unfold present. simpl. apply existsb_filter_negb.
Qed.

Lemma fakeConnector_connects (cr : v1alpha1.ServiceAccount)
  (w : World FakeRemote FakeStore) (credentials identity passphrase : string) :
  authFault (remote w) = None ->
  fst (config (store w)) = v1alpha1.ProviderConfigReference (v1alpha1.Spec cr) ->
  secret (store w) = Some credentials ->
  Split credentials ":"%char = [identity; passphrase] ->
  exists w1,
    Connect fakePackages fakeConnector (ManagedServiceAccount cr) w
    = ((Some fakeExternal, None), w1) /\
    remote w1 = remote w /\
    writeFaults (store w1) = writeFaults (store w) /\
    config (store w1) = config (store w) /\
    secret (store w1) = secret (store w) /\
    trace w1 = CallAuthenticate identity passphrase None :: CallTrack None :: trace w.
Proof.
  intros Hauth Hconfig Hsecret Hsplit.
  unfold fakeConnector. rewrite Connect_run. cbv zeta. simpl.
  rewrite Hconfig, String.eqb_refl, Hsecret. simpl. rewrite Hsplit. simpl.
  rewrite Hauth. simpl. eexists. split; [reflexivity|]. repeat split.
Qed.

Lemma fakeExternal_delete_tick (h : Helpers) (cr : v1alpha1.ServiceAccount)
  (w : World FakeRemote FakeStore) :
  v1alpha1.Deleted (v1alpha1.Meta cr) = true ->
  deleteFault (remote w) = None ->
  writeFaults (store w) = [] ->
  exists w',
    Tick h fakeExternal (ManagedServiceAccount cr) w
    = ((ManagedServiceAccount (v1alpha1.SetConditions cr xpv1.Deleting),
        (ActionDelete, None)), w') /\
    present (AtProviderID cr) (remote w') = false /\
    deleteFault (remote w') = None /\
    authFault (remote w') = authFault (remote w) /\
    writeFaults (store w') = [] /\
    config (store w') = config (store w) /\
    secret (store w') = secret (store w) /\
    trace w' = CallServiceAccountDelete (AtProviderID cr) None
               :: CallKubeStatusUpdate (v1alpha1.SetConditions cr xpv1.Deleting) None
               :: trace w.
Proof.
  intros Hdel Hfault Hwrites.
  unfold Tick, WasDeleted. rewrite Hdel. unfold bind, ret.
  rewrite Delete_run. cbv zeta.
  assert (Hwrite : client.StatusUpdate (kube fakeExternal)
                     (v1alpha1.SetConditions cr xpv1.Deleting) (store w)
                   = (None,
                      afterWrite (store w)
                        {| v1alpha1.Meta := v1alpha1.Meta (object (store w));
                           v1alpha1.Spec := v1alpha1.Spec (object (store w));
                           v1alpha1.Status :=
                             v1alpha1.Status (v1alpha1.SetConditions cr xpv1.Deleting) |})).
  { simpl. now rewrite Hwrites. }
  rewrite Hwrite. cbn [fst snd remote afterStore].
  destruct (fakeClient_delete (AtProviderID (v1alpha1.SetConditions cr xpv1.Deleting))
              (remote w) Hfault) as (Hres & Habsent & Hfault' & Hauth').
  cbv zeta in Hres, Habsent, Hfault', Hauth'.
  change (service fakeExternal) with fakeClient. rewrite Hres.
  eexists. split; [reflexivity|].
  cbn [remote store trace afterRemote afterStore].
  split; [exact Habsent|]. split; [exact Hfault'|]. split; [exact Hauth'|].
  split; [simpl; now rewrite Hwrites|]. repeat split.
Qed.

(** C8. With the remote system of the spec, where deleting an object
    that is already absent is a success: two deletion ticks in a row on
    a resource marked for deletion both end without error; after the
    first the object is absent, and the second makes its delete call
    on that absent object and gets a success. *)
Theorem delete_of_absent_object_succeeds (h : Helpers) (cr : v1alpha1.ServiceAccount)
  (w : World FakeRemote FakeStore) (credentials identity passphrase : string) :
  v1alpha1.Deleted (v1alpha1.Meta cr) = true ->
  authFault (remote w) = None ->
  deleteFault (remote w) = None ->
  writeFaults (store w) = [] ->
  fst (config (store w)) = v1alpha1.ProviderConfigReference (v1alpha1.Spec cr) ->
  secret (store w) = Some credentials ->
  Split credentials ":"%char = [identity; passphrase] ->
  let first := Reconcile h fakePackages fakeConnector (ManagedServiceAccount cr) w in
  let second := Reconcile h fakePackages fakeConnector (fst (fst first)) (snd first) in
  snd (fst first) = (ActionDelete, None) /\
  present (AtProviderID cr) (remote (snd first)) = false /\
  snd (fst second) = (ActionDelete, None) /\
  hd_error (trace (snd second)) = Some (CallServiceAccountDelete (AtProviderID cr) None) /\
  deleteCalls (trace (snd second)) = 2 + deleteCalls (trace w).
Proof.
  intros Hdel Hauth Hfault Hwrites Hconfig Hsecret Hsplit first second.
  destruct (fakeConnector_connects cr w _ _ _ Hauth Hconfig Hsecret Hsplit)
    as (w1 & Hconn & Hr1 & Hw1 & Hc1 & Hs1 & Ht1).
  destruct (fakeExternal_delete_tick h cr w1 Hdel) as
    (w2 & Htick & Habsent & Hfault2 & Hauth2 & Hwrites2 & Hc2 & Hs2 & Ht2);
    [now rewrite Hr1 | now rewrite Hw1 |].
  assert (Hfirst : first
                   = ((ManagedServiceAccount (v1alpha1.SetConditions cr xpv1.Deleting),
                       (ActionDelete, None)), w2)).
  { subst first. now rewrite (Reconcile_connected _ _ _ _ _ _ _ Hconn). }
  subst second. rewrite Hfirst. cbn [fst snd].
  destruct (fakeConnector_connects (v1alpha1.SetConditions cr xpv1.Deleting) w2
              credentials identity passphrase)
    as (w3 & Hconn3 & Hr3 & Hw3 & Hc3 & Hs3 & Ht3).
  { now rewrite Hauth2, Hr1. }
  { rewrite Hc2, Hc1. exact Hconfig. }
  { now rewrite Hs2, Hs1. }
  { exact Hsplit. }
  destruct (fakeExternal_delete_tick h (v1alpha1.SetConditions cr xpv1.Deleting) w3 Hdel)
    as (w4 & Htick4 & _ & _ & _ & _ & _ & _ & Ht4);
    [now rewrite Hr3 | now rewrite Hw3 |].
  rewrite (Reconcile_connected _ _ _ _ _ _ _ Hconn3), Htick4. cbn [fst snd].
  split; [reflexivity|]. split; [exact Habsent|]. split; [reflexivity|].
  rewrite Ht4, Ht3, Ht2, Ht1. split; reflexivity.
Qed.

Lemma delete_of_absent_object_succeeds_witness :
  let w := worldOf (remoteOf [account1 "payments"]) (storeOf svc1Deleted "id:secret" []) in
  let first := Reconcile specHelpers fakePackages fakeConnector
                 (ManagedServiceAccount svc1Deleted) w in
  let second := Reconcile specHelpers fakePackages fakeConnector
                  (fst (fst first)) (snd first) in
  accounts (remote w) = [account1 "payments"] /\
  snd (fst first) = (ActionDelete, None) /\
  accounts (remote (snd first)) = [] /\
  snd (fst second) = (ActionDelete, None) /\
  deleteCalls (trace (snd second)) = 2.
Proof.
  intros w first second.
  destruct (delete_of_absent_object_succeeds specHelpers svc1Deleted w
              "id:secret" "id" "secret"
              eq_refl eq_refl eq_refl eq_refl eq_refl eq_refl eq_refl)
    as (H1 & _ & H3 & _ & H5).
  split; [reflexivity|]. split; [exact H1|]. split; [reflexivity|].
  split; [exact H3 | exact H5].
Defined.

(** * Further properties *)

(** ** The API credentials [Connect] selects *)

(** X1. The loop of [Connect] over the API credentials of the
    ProviderConfig stops at the first entry that carries the
    identifier of this API group: entries in front of it that carry
    another identifier are passed over, entries behind it are not
    looked at; when no entry carries the identifier the zero value is
    passed on. *)
Theorem selectAPICredentials_first_match {R K : Type} (pkg : Packages R K)
  (before : list clients.APICredentials) :
  (forall x, In x before ->
             clients.Identifier x <> SchemeGroupVersionIdentifier pkg) ->
  selectAPICredentials pkg before = clients.zero /\
  (forall value rest,
      clients.Identifier value = SchemeGroupVersionIdentifier pkg ->
      selectAPICredentials pkg (before ++ value :: rest) = value).
Proof.
  induction before as [|x before IH]; intros Hno.
  - split; [reflexivity|]. intros value rest Hvalue. simpl.
    now rewrite Hvalue, String.eqb_refl.
  - assert (Hx : String.eqb (clients.Identifier x) (SchemeGroupVersionIdentifier pkg)
                 = false).
    { apply String.eqb_neq. apply Hno. now left. }
    destruct IH as [IHzero IHvalue].
    { intros y Hy. apply Hno. now right. }
    split.
    + simpl. now rewrite Hx.
    + intros value rest Hvalue. simpl. rewrite Hx. now apply IHvalue.
Qed.

Lemma selectAPICredentials_first_match_witness :
  let acl := {| clients.Identifier := "acl"; clients.Key := "k1"; clients.Secret := "s1" |} in
  let sa := {| clients.Identifier := "serviceaccount";
               clients.Key := "k2"; clients.Secret := "s2" |} in
  let sa' := {| clients.Identifier := "serviceaccount";
                clients.Key := "k3"; clients.Secret := "s3" |} in
  selectAPICredentials fakePackages [acl] = clients.zero /\
  selectAPICredentials fakePackages [acl; sa; sa'] = sa.
Proof.
  intros acl sa sa'.
  assert (Hno : forall x, In x [acl] ->
                  clients.Identifier x <> SchemeGroupVersionIdentifier fakePackages).
  { intros x [<-|[]]. discriminate. }
  split.
  - exact (proj1 (selectAPICredentials_first_match fakePackages [acl] Hno)).
  - exact (proj2 (selectAPICredentials_first_match fakePackages [acl] Hno) sa [sa'] eq_refl).
Defined.

(** ** The errors and the calls of [Connect] *)

(** X2. The error [Connect] returns tells the step that failed and
    carries that step's own error: an error wrapped as "cannot track
    ProviderConfig usage" is the tracker's, one wrapped as "cannot get
    ProviderConfig" is the read of the ProviderConfig after a
    successful tracking, one wrapped as "cannot get credentials" is the
    credential extractor's after both, and one wrapped as "cannot
    create new Service" comes from the client factory after all
    three. *)
Theorem Connect_error_tells_step {R K : Type} (pkg : Packages R K)
  (kubeClient : client.Client K) (tracker : Tracker K)
  (cr : v1alpha1.ServiceAccount) (w : World R K) (e : error) :
  let track := Track tracker (ManagedServiceAccount cr) (store w) in
  let w1 := afterStore w (snd track) (CallTrack (fst track)) in
  let get := client.Get kubeClient
               (v1alpha1.ProviderConfigReference (v1alpha1.Spec cr)) (store w1) in
  let creds := CommonCredentialExtractor pkg
                 (CredentialsSource (fst get)) (CredentialsSelector (fst get)) (store w1) in
  let err := snd (fst (Connect pkg (setupConnector pkg kubeClient tracker)
                         (ManagedServiceAccount cr) w)) in
  (err = Some (errors_Wrap e errTrackPCUsage) -> fst track = Some e) /\
  (err = Some (errors_Wrap e errGetPC) -> fst track = None /\ snd get = Some e) /\
  (err = Some (errors_Wrap e errGetCreds) ->
   fst track = None /\ snd get = None /\ snd creds = Some e) /\
  (err = Some (errors_Wrap e errNewClient) ->
   fst track = None /\ snd get = None /\ snd creds = None) /\
  err <> Some (errors_New errNotMyType).
Proof.
  intros track w1 get creds err. subst err.
  rewrite Connect_run. cbv zeta. fold track. fold w1. fold get. fold creds.
  destruct (fst track) as [e1|]; [|destruct (snd get) as [e2|];
    [|destruct (snd creds) as [e3|];
      [|destruct (negb (Nat.eqb (List.length (Split (fst creds) ":")) 2));
        [|destruct (fst (Authenticate pkg _ _ _)) as [e4|]]]]];
    cbn [fst snd];
    unfold errors_Wrap, errors_New, errTrackPCUsage, errGetPC, errGetCreds,
      errNewClient, errNotMyType, errAuthCredentials; simpl;
    repeat match goal with |- _ /\ _ => split end;
    intros H; try discriminate H;
    try (injection H as H; subst; repeat split; reflexivity);
    repeat split; reflexivity.
Qed.

Lemma Connect_error_tells_step_witness :
  let w := worldOf (remoteOf []) (storeOf
             (newServiceAccount "svc-1" "" "payments" "" [] false) "id:secret" []) in
  let cr := {| v1alpha1.Meta := v1alpha1.Meta svc1;
               v1alpha1.Spec :=
                 {| v1alpha1.ProviderConfigReference := "missing";
                    v1alpha1.ForProvider := v1alpha1.ForProvider (v1alpha1.Spec svc1) |};
               v1alpha1.Status := v1alpha1.Status svc1 |} in
  snd (fst (Connect fakePackages fakeConnector (ManagedServiceAccount cr) w))
    = Some (errors_Wrap "not found" errGetPC) /\
  snd (client.Get fakeKube "missing" (store w)) = Some "not found".
Proof.
  intros w cr. split; [reflexivity|].
  exact (proj2 (proj1 (proj2 (Connect_error_tells_step fakePackages fakeKube fakeTracker
                                cr w "not found")) eq_refl)).
Defined.

(** X3. What [Connect] does to the world: its calls are the tracking
    of the ProviderConfig usage and, after that succeeded, at most one
    authentication; nothing else is called, on the remote system or on
    the API server.  It hands out a client, whose Kubernetes client is
    the connector's, exactly when it returns no error, and only after
    a successful tracking and a successful authentication. *)
Theorem Connect_calls {R K : Type} (pkg : Packages R K)
  (kubeClient : client.Client K) (tracker : Tracker K)
  (mg : Managed) (w : World R K) :
  let out := Connect pkg (setupConnector pkg kubeClient tracker) mg w in
  (trace (snd out) = trace w \/
   (exists res, trace (snd out) = CallTrack res :: trace w) \/
   (exists identity passphrase res,
       trace (snd out)
       = CallAuthenticate identity passphrase res :: CallTrack None :: trace w)) /\
  (forall e, snd (fst out) = Some e -> fst (fst out) = None) /\
  (snd (fst out) = None ->
   exists c identity passphrase,
     fst (fst out) = Some c /\ kube c = kubeClient /\
     trace (snd out)
     = CallAuthenticate identity passphrase None :: CallTrack None :: trace w).
Proof.
  intros out. subst out. destruct mg as [cr|a|kind].
  - rewrite Connect_run. cbv zeta.
    destruct (fst (Track tracker _ _)) as [e1|].
    { split; [right; left; eexists; reflexivity|].
      split; [reflexivity|discriminate]. }
    destruct (snd (client.Get kubeClient _ _)) as [e2|].
    { split; [right; left; eexists; reflexivity|].
      split; [reflexivity|discriminate]. }
    destruct (snd (CommonCredentialExtractor pkg _ _ _)) as [e3|].
    { split; [right; left; eexists; reflexivity|].
      split; [reflexivity|discriminate]. }
    destruct (negb (Nat.eqb _ 2)).
    { split; [right; left; eexists; reflexivity|].
      split; [reflexivity|discriminate]. }
    destruct (fst (Authenticate pkg _ _ _)) as [e4|] eqn:Hauth.
    { split; [right; right; do 3 eexists; reflexivity|].
      split; [reflexivity|discriminate]. }
    split; [right; right; do 3 eexists; reflexivity|].
    split; [discriminate|].
    intros _. do 3 eexists. split; [reflexivity|]. split; reflexivity.
  - split; [left; reflexivity|]. split; [reflexivity|discriminate].
  - split; [left; reflexivity|]. split; [reflexivity|discriminate].
Qed.

Lemma Connect_calls_witness :
  let w := worldOf (remoteOf []) (storeOf svc1 "id:secret" []) in
  let out := Connect fakePackages fakeConnector (ManagedServiceAccount svc1) w in
  snd (fst out) = None /\
  exists c identity passphrase,
    fst (fst out) = Some c /\ kube c = fakeKube /\
    trace (snd out) = [CallAuthenticate identity passphrase None; CallTrack None].
Proof.
  intros w out. split; [reflexivity|].
  exact (proj2 (proj2 (Connect_calls fakePackages fakeKube fakeTracker
                         (ManagedServiceAccount svc1) w)) eq_refl).
Defined.

(** ** The credentials [createAndConvertClientFunc] takes apart *)

Lemma Join_Split (s : string) (sep : ascii) : Join (Split s sep) sep = s.
Proof.
  induction s as [|c rest IH]; [reflexivity|].
  cbn [Split]. destruct (Ascii.eqb c sep) eqn:Hc.
  - apply Ascii.eqb_eq in Hc. subst c.
    destruct (Split rest sep) as [|p ps] eqn:Hsplit.
    + pose proof (Split_length rest sep) as Hlen. rewrite Hsplit in Hlen. discriminate.
    + cbn [Join]. cbn [Join] in IH. simpl. now rewrite IH.
  - destruct (Split rest sep) as [|p ps] eqn:Hsplit.
    + pose proof (Split_length rest sep) as Hlen. rewrite Hsplit in Hlen. discriminate.
    + destruct ps as [|q qs]; cbn [Join] in IH |- *; simpl; now rewrite <- IH.
Qed.

Lemma Split_parts_without_separator (s : string) (sep : ascii) :
  Forall (fun part => Count part sep = 0) (Split s sep).
Proof.
  induction s as [|c rest IH]; [repeat constructor|].
  cbn [Split]. destruct (Ascii.eqb c sep) eqn:Hc.
  - constructor; [reflexivity | exact IH].
  - destruct (Split rest sep) as [|p ps]; [repeat constructor; simpl; now rewrite Hc|].
    inversion IH as [|? ? Hp Hps]; subst.
    constructor; [|exact Hps]. simpl. now rewrite Hc.
Qed.

(** X4. [createAndConvertClientFunc] takes credentials with exactly one
    ":" and no others: with none or with more than one, a ":" in the
    passphrase included, it returns "invalid client credentials" and
    leaves the world as it is.  With exactly one, the identity and the
    passphrase it authenticates with are the text in front of the ":"
    and the text behind it: put together again around a ":" they are
    the credentials, and neither holds a ":". *)
Theorem credentials_one_separator {R K : Type} (pkg : Packages R K)
  (clientCreds : string) (apiCreds : clients.APICredentials) (w : World R K) :
  let out := createAndConvertClientFunc pkg clientCreds apiCreds w in
  (Count clientCreds ":"%char <> 1 ->
   out = ((None, Some (errors_New errAuthCredentials)), w)) /\
  (Count clientCreds ":"%char = 1 ->
   exists identity passphrase,
     clientCreds = (identity ++ ":" ++ passphrase)%string /\
     Count identity ":"%char = 0 /\ Count passphrase ":"%char = 0 /\
     trace (snd out)
     = CallAuthenticate identity passphrase
         (fst (Authenticate pkg identity passphrase (remote w))) :: trace w /\
     snd (fst out) = fst (Authenticate pkg identity passphrase (remote w))).
Proof.
  intros out. subst out. unfold createAndConvertClientFunc.
  pose proof (Split_length clientCreds ":"%char) as Hlen.
  pose proof (Join_Split clientCreds ":"%char) as Hjoin.
  pose proof (Split_parts_without_separator clientCreds ":"%char) as Hparts.
  split.
  - intros Hcount.
    assert (Hne : Nat.eqb (List.length (Split clientCreds ":")) 2 = false).
    { apply Nat.eqb_neq. rewrite Hlen. lia. }
    rewrite Hne. reflexivity.
  - intros Hcount. rewrite Hcount in Hlen.
    destruct (Split clientCreds ":") as [|identity [|passphrase [|x xs]]];
      try discriminate Hlen.
    exists identity, passphrase.
    pose proof (Forall_inv Hparts) as Hi.
    pose proof (Forall_inv (Forall_inv_tail Hparts)) as Hp.
    cbn beta in Hi, Hp.
    split; [symmetry; exact Hjoin|]. split; [exact Hi|]. split; [exact Hp|].
    cbn [List.length Nat.eqb negb nth]. unfold bind, callRemote, ret.
    destruct (Authenticate pkg identity passphrase (remote w)) as [[e|] r];
      split; reflexivity.
Qed.

Lemma credentials_one_separator_witness :
  let w := worldOf (remoteOf []) (storeOf svc1 "id:secret" []) in
  createAndConvertClientFunc fakePackages "id:sec:ret" clients.zero w
    = ((None, Some (errors_New errAuthCredentials)), w) /\
  createAndConvertClientFunc fakePackages "" clients.zero w
    = ((None, Some (errors_New errAuthCredentials)), w) /\
  exists identity passphrase,
    "id:secret" = (identity ++ ":" ++ passphrase)%string /\
    trace (snd (createAndConvertClientFunc fakePackages "id:secret" clients.zero w))
    = [CallAuthenticate identity passphrase None].
Proof.
  intros w.
  split; [|split].
  - apply (proj1 (credentials_one_separator fakePackages "id:sec:ret" clients.zero w)).
    simpl. discriminate.
  - apply (proj1 (credentials_one_separator fakePackages "" clients.zero w)).
    simpl. discriminate.
  - destruct (proj2 (credentials_one_separator fakePackages "id:secret" clients.zero w)
                eq_refl) as (identity & passphrase & Hjoin & _ & _ & Htrace & _).
    exists identity, passphrase. split; [exact Hjoin|]. exact Htrace.
Defined.

(** ** What [Observe] calls and what it reports *)

(** X5. [Observe] reads the remote system and does not change it
    through the client: on a ServiceAccount its one remote call is the
    lookup by the name the helper gives.  It writes to the API server
    in one case only, the status with the [Available] condition, after
    the lookup; in every other case the resource and the API server
    are what they were. *)
Theorem Observe_calls {R K : Type} (h : Helpers) (c : external R K)
  (cr : v1alpha1.ServiceAccount) (w : World R K) :
  let out := Observe h c (ManagedServiceAccount cr) w in
  let name := fst (ExternalNameHelper h cr) in
  let lookup := serviceaccount.ServiceAccountByName (service c) name (remote w) in
  let looked := CallServiceAccountByName name (snd (fst lookup)) in
  remote (snd out) = snd lookup /\
  ((trace (snd out) = looked :: trace w /\
    store (snd out) = store w /\
    fst (fst out) = ManagedServiceAccount cr) \/
   (exists res,
       trace (snd out)
       = CallKubeStatusUpdate (v1alpha1.SetConditions cr xpv1.Available) res
         :: looked :: trace w /\
       fst (fst out) = ManagedServiceAccount (v1alpha1.SetConditions cr xpv1.Available))).
Proof.
  intros out name lookup looked. subst out looked lookup name.
  rewrite Observe_run. cbv zeta.
  destruct (snd (ObserveCreateResource h cr _)) as [e|].
  { split; [reflexivity|]. left. repeat split. }
  destruct (fst (ObserveCreateResource h cr _)).
  { split; [reflexivity|]. left. repeat split. }
  destruct (ObserveUpdateResource h cr _).
  { split; [reflexivity|]. left. repeat split. }
  destruct (fst (client.StatusUpdate (kube c) _ _)) as [e|] eqn:Hwrite;
    (split; [reflexivity|]); right; eexists; split; reflexivity.
Qed.

(** X6. What [Observe] reports is consistent: with an error the
    observation is the empty one, so the resource is never reported as
    existing next to an error; a resource reported up to date is
    reported as existing, without error, carries the [Available]
    condition, and that status was taken by the API server as the last
    call; and a resource reported without error as not up to date is
    left as it was. *)
Theorem Observe_report {R K : Type} (h : Helpers) (c : external R K)
  (cr : v1alpha1.ServiceAccount) (w : World R K) :
  let out := Observe h c (ManagedServiceAccount cr) w in
  let observation := fst (snd (fst out)) in
  let err := snd (snd (fst out)) in
  (err <> None -> observation = zeroObservation) /\
  (ResourceUpToDate observation = true ->
   ResourceExists observation = true /\ err = None /\
   fst (fst out) = ManagedServiceAccount (v1alpha1.SetConditions cr xpv1.Available) /\
   hd_error (trace (snd out))
   = Some (CallKubeStatusUpdate (v1alpha1.SetConditions cr xpv1.Available) None)) /\
  (err = None -> ResourceUpToDate observation = false ->
   fst (fst out) = ManagedServiceAccount cr /\ store (snd out) = store w).
Proof.
  intros out observation err. subst err observation out.
  rewrite Observe_run. cbv zeta.
  destruct (snd (ObserveCreateResource h cr _)) as [e|].
  { cbn [fst snd ResourceUpToDate]. repeat split; try discriminate; try congruence. }
  destruct (fst (ObserveCreateResource h cr _)).
  { cbn [fst snd ResourceUpToDate]. repeat split; try discriminate; try congruence. }
  destruct (ObserveUpdateResource h cr _).
  { cbn [fst snd ResourceUpToDate]. repeat split; try discriminate; try congruence. }
  destruct (fst (client.StatusUpdate (kube c) _ _)) as [e|] eqn:Hwrite;
    cbn [fst snd ResourceUpToDate ResourceExists zeroObservation].
  - repeat split; try discriminate; try congruence.
  - repeat split; try discriminate; try congruence.
Qed.

Lemma Observe_report_witness :
  let w := worldOf (remoteOf [account1 "payments"]) (storeOf svc1Created "id:secret" []) in
  let out := Observe specHelpers fakeExternal (ManagedServiceAccount svc1Created) w in
  snd (fst out) = ({| ResourceExists := true; ResourceUpToDate := true |}, None) /\
  fst (fst out)
  = ManagedServiceAccount (v1alpha1.SetConditions svc1Created xpv1.Available).
Proof.
  intros w out. split; [reflexivity|].
  destruct (proj1 (proj2 (Observe_report specHelpers fakeExternal svc1Created w)) eq_refl)
    as (_ & _ & H & _).
  exact H.
Defined.

(** ** The steps of [Create] *)

(** X7. [Create] stops at the first step that is refused: whatever the
    helpers and the clients answer, no write to the API server and no
    remote creation that was refused is followed by another call.  And
    it makes each of its calls at most once: one lookup, one remote
    creation, one write of the object, the status being written before
    and after; it never updates or deletes on the remote system. *)
Theorem Create_stops_at_first_failure {R K : Type} (h : Helpers) (c : external R K)
  (cr : v1alpha1.ServiceAccount) (w : World R K) (new : list Call) :
  trace (snd (Create h c (ManagedServiceAccount cr) w)) = (new ++ trace w)%list ->
  Forall (fun call => isFailedStep call = false) (tl new) /\
  countCalls isLookup new <= 1 /\
  createCalls new <= 1 /\
  countCalls isObjectWrite new <= 1 /\
  1 <= countCalls isStatusWrite new <= 2 /\
  updateCalls new = 0 /\ deleteCalls new = 0.
Proof.
  intros Hnew.
  destruct (Create h c (ManagedServiceAccount cr) w) as [[mg' err] w'] eqn:Hrun.
  cbn [snd] in Hnew.
  split_run Hrun; injection Hrun as Hmg Herr Hw; subst mg' w'; pin_calls Hnew;
    unfold countCalls, createCalls, updateCalls, deleteCalls; cbn;
    (split; [repeat constructor|]); repeat split; lia.
Qed.

Lemma Create_stops_at_first_failure_witness :
  let w := worldOf (remoteOf []) (storeOf svc1 "id:secret" [None; Some "conflict"]) in
  let out := Create specHelpers fakeExternal (ManagedServiceAccount svc1) w in
  snd (fst out) = Some "conflict" /\
  List.length (trace (snd out)) = 3 /\
  countCalls isStatusWrite (trace (snd out)) = 1.
Proof.
  intros w out.
  destruct (Create_stops_at_first_failure specHelpers fakeExternal svc1 w
              (trace (snd out)) (eq_sym (app_nil_r _)))
    as (_ & _ & _ & _ & [H _] & _).
  split; [reflexivity|]. split; [reflexivity|]. reflexivity.
Defined.

Lemma pair_of_parts {A B : Type} (p : A * B) (a : A) (b : B) :
  fst p = a -> snd p = b -> p = (a, b).
Proof. destruct p. simpl. congruence. Qed.

(** X8. [Create] writes the object to the API server only once the
    remote object is known: after a remote creation that succeeded,
    or, for a resource with an external name, after a lookup that the
    helper took for an import.  The object it writes carries the name
    the helper gave as its external name and the identifier of the
    object created or found. *)
Theorem Create_writes_known_object {R K : Type} (h : Helpers) (c : external R K)
  (cr cr' : v1alpha1.ServiceAccount) (w : World R K) (new : list Call)
  (res : option error) :
  trace (snd (Create h c (ManagedServiceAccount cr) w)) = (new ++ trace w)%list ->
  In (CallKubeUpdate cr' res) new ->
  let name := fst (ExternalNameHelper h (v1alpha1.SetConditions cr xpv1.Creating)) in
  let lookup := serviceaccount.ServiceAccountByName (service c) name (remote w) in
  ExternalNameOf cr' = name /\
  ((exists created,
       In (CallServiceAccountCreate name (DescriptionOf cr) created None) new /\
       AtProviderID cr' = serviceaccount.ID created) \/
   (snd (ExternalNameHelper h (v1alpha1.SetConditions cr xpv1.Creating)) = true /\
    In (CallServiceAccountByName name (snd (fst lookup))) new /\
    CreateResourceIsImport h (snd (fst lookup)) = (true, None) /\
    createCalls new = 0 /\
    AtProviderID cr' = serviceaccount.ID (fst (fst lookup)))).
Proof.
  intros Hnew Hwrite name lookup. subst lookup name.
  destruct (Create h c (ManagedServiceAccount cr) w) as [[mg' err] w'] eqn:Hrun.
  cbn [snd] in Hnew.
  split_run Hrun; injection Hrun as Hmg Herr Hw; subst mg' w'; pin_calls Hnew;
    simpl in Hwrite;
    repeat (destruct Hwrite as [Hwrite|Hwrite]; [try discriminate Hwrite|]);
    try contradiction;
    injection Hwrite as <- <-; (split; [reflexivity|]);
    first
      [ left; eexists; split;
        [ cbn [In];
          first [ left; reflexivity
                | right; left; reflexivity
                | right; right; left; reflexivity ]
        | reflexivity ]
      | right; split; [reflexivity|];
        split;
        [ cbn [In];
          first [ right; left; reflexivity
                | right; right; left; reflexivity
                | right; right; right; left; reflexivity ]
        | split; [apply pair_of_parts; assumption|]; split; reflexivity ] ].
Qed.

Lemma Create_writes_known_object_witness :
  let w := worldOf (remoteOf [account1 "payments"]) (storeOf svc1Named "id:secret" []) in
  let out := Create specHelpers fakeExternal (ManagedServiceAccount svc1Named) w in
  let written := v1alpha1.SetExternalName
                   (v1alpha1.SetID (v1alpha1.SetConditions svc1Named xpv1.Creating)
                      "sa-svc-1") "svc-1" in
  List.length (trace (snd out)) = 4 /\
  In (CallKubeUpdate written None) (trace (snd out)) /\
  createCalls (trace (snd out)) = 0.
Proof.
  intros w out written.
  destruct (Create_writes_known_object specHelpers fakeExternal svc1Named written w
              (trace (snd out)) None (eq_sym (app_nil_r _))
              (or_intror (or_introl eq_refl)))
    as (_ & [(created & Hcreated & _) | (_ & _ & _ & Hnone & _)]).
  - exfalso. simpl in Hcreated.
    repeat (destruct Hcreated as [Hcreated|Hcreated]; [discriminate Hcreated|]).
    exact Hcreated.
  - split; [reflexivity|]. split; [right; left; reflexivity|]. exact Hnone.
Defined.

(** ** The conditions [Create] and [Delete] leave *)

Lemma type_eqb_eq (a b : xpv1.ConditionType) : xpv1.type_eqb a b = true <-> a = b.
Proof. destruct a, b; simpl; split; congruence. Qed.

Lemma GetCondition_SetCondition_other (cs : list xpv1.Condition)
  (c : xpv1.Condition) (ct : xpv1.ConditionType) :
  xpv1.Type_ c <> ct ->
  xpv1.GetCondition (xpv1.SetCondition cs c) ct = xpv1.GetCondition cs ct.
Proof.
  intros Hct.
  assert (Hc : xpv1.type_eqb (xpv1.Type_ c) ct = false).
  { destruct (xpv1.type_eqb (xpv1.Type_ c) ct) eqn:E; [|reflexivity].
    apply type_eqb_eq in E. contradiction. }
  induction cs as [|x cs IH]; simpl.
  - now rewrite Hc.
  - destruct (xpv1.type_eqb (xpv1.Type_ x) (xpv1.Type_ c)) eqn:E; simpl.
    + apply type_eqb_eq in E. rewrite E, Hc. reflexivity.
    + destruct (xpv1.type_eqb (xpv1.Type_ x) ct); [reflexivity | exact IH].
Qed.

(** X9. Whatever [Create] returns, the resource it leaves has the
    condition [Creating] as its [Ready] condition, never [Available]:
    no path through [Create] sets another condition after the first
    step.  The other conditions, the spec, the name and the deletion
    mark of the resource are what they were. *)
Theorem Create_leaves_Creating {R K : Type} (h : Helpers) (c : external R K)
  (cr : v1alpha1.ServiceAccount) (w : World R K) :
  exists cr',
    fst (fst (Create h c (ManagedServiceAccount cr) w)) = ManagedServiceAccount cr' /\
    conditionOf cr' xpv1.TypeReady = xpv1.Creating /\
    conditionOf cr' xpv1.TypeSynced = conditionOf cr xpv1.TypeSynced /\
    v1alpha1.Spec cr' = v1alpha1.Spec cr /\
    v1alpha1.Name (v1alpha1.Meta cr') = v1alpha1.Name (v1alpha1.Meta cr) /\
    v1alpha1.Deleted (v1alpha1.Meta cr') = v1alpha1.Deleted (v1alpha1.Meta cr).
Proof.
  assert (Hready : forall cr0, conditionOf (v1alpha1.SetConditions cr0 xpv1.Creating)
                                 xpv1.TypeReady = xpv1.Creating).
  { intros cr0. exact (GetCondition_SetCondition _ xpv1.Creating). }
  assert (Hsynced : forall cr0, conditionOf (v1alpha1.SetConditions cr0 xpv1.Creating)
                                  xpv1.TypeSynced = conditionOf cr0 xpv1.TypeSynced).
  { intros cr0. apply GetCondition_SetCondition_other. discriminate. }
  destruct (Create h c (ManagedServiceAccount cr) w) as [[mg' err] w'] eqn:Hrun.
  split_run Hrun; injection Hrun as Hmg Herr Hw; subst mg' w'; cbn [fst];
    eexists; (split; [reflexivity|]);
    (split; [exact (Hready cr)|]); (split; [exact (Hsynced cr)|]);
    repeat split.
Qed.

(** ** Delete *)

(** X10. [Delete] reaches the remote system only once the API server
    has taken the [Deleting] status: when that write is refused it
    returns the error of the write and the remote system is what it
    was.  Otherwise its one remote call is the deletion of the
    identifier the resource carries, and its result is the verdict of
    that call.  It writes the status once and never the object, and
    leaves the resource with [Deleting] as its [Ready] condition and
    with its spec, name, external name and identifier as they were. *)
Theorem Delete_after_status {R K : Type} (c : external R K)
  (cr : v1alpha1.ServiceAccount) (w : World R K) (new : list Call) :
  let out := Delete c (ManagedServiceAccount cr) w in
  let deleting := v1alpha1.SetConditions cr xpv1.Deleting in
  let write := client.StatusUpdate (kube c) deleting (store w) in
  let deletion := serviceaccount.ServiceAccountDelete (service c) (AtProviderID cr) (remote w) in
  trace (snd out) = (new ++ trace w)%list ->
  fst (fst out) = ManagedServiceAccount deleting /\
  conditionOf deleting xpv1.TypeReady = xpv1.Deleting /\
  (AtProviderID deleting = AtProviderID cr /\ ExternalNameOf deleting = ExternalNameOf cr /\
   v1alpha1.Spec deleting = v1alpha1.Spec cr) /\
  countCalls isStatusWrite new = 1 /\ countCalls isObjectWrite new = 0 /\
  (forall e, fst write = Some e ->
             snd (fst out) = Some e /\ remote (snd out) = remote w /\
             countCalls isRemoteCall new = 0) /\
  (fst write = None ->
   snd (fst out) = fst deletion /\ remote (snd out) = snd deletion /\
   new = [CallServiceAccountDelete (AtProviderID cr) (fst deletion);
          CallKubeStatusUpdate deleting None]).
Proof.
  intros out deleting write deletion Hnew. subst out.
  rewrite Delete_run in Hnew |- *. cbv zeta in Hnew |- *.
  fold deleting in Hnew |- *. fold write in Hnew |- *.
  split; [destruct (fst write); reflexivity|].
  split; [exact (GetCondition_SetCondition _ xpv1.Deleting)|].
  split; [repeat split|].
  destruct (fst write) as [e|]; cbn [fst snd] in Hnew |- *; pin_calls Hnew;
    (split; [reflexivity|]); (split; [reflexivity|]); split;
    try discriminate; try (intros _; repeat split; reflexivity).
  intros e' He'. injection He' as <-. repeat split.
Qed.

Lemma Delete_after_status_witness :
  let w := worldOf (remoteOf [account1 "payments"])
             (storeOf svc1Deleted "id:secret" [Some "conflict"]) in
  let out := Delete fakeExternal (ManagedServiceAccount svc1Deleted) w in
  snd (fst out) = Some "conflict" /\
  remote (snd out) = remote w /\
  countCalls isRemoteCall (trace (snd out)) = 0.
Proof.
  intros w out.
  destruct (Delete_after_status fakeExternal svc1Deleted w (trace (snd out))
              (eq_sym (app_nil_r _)))
    as (_ & _ & _ & _ & _ & Hfail & _).
  exact (Hfail "conflict" eq_refl).
Defined.

(** ** The build and test script *)

Lemma prefix_append (pat s : string) :
  String.prefix pat s = true <-> exists rest, s = (pat ++ rest)%string.
Proof.
  revert s. induction pat as [|a pat IH]; intros s.
  - split; [intros _; exists s; reflexivity|]. intros _. now destruct s.
  - destruct s as [|b s]; simpl.
    + split; [discriminate|]. intros [rest H]. discriminate H.
    + destruct (Ascii.ascii_dec a b) as [->|Hab].
      * rewrite IH. split; intros [rest H]; exists rest; [now rewrite H|].
        simpl in H. congruence.
      * split; [discriminate|]. intros [rest H]. simpl in H. congruence.
Qed.

(** [grepLine pat line] holds when [pat] occurs in [line]. *)
Lemma grepLine_occurs (pat line : string) :
  grepLine pat line = true <->
  exists front rest, line = (front ++ pat ++ rest)%string.
Proof.
  induction line as [|a line IH].
  - cbn [grepLine]. rewrite prefix_append. split.
    + intros [rest H]. exists EmptyString, rest. exact H.
    + intros (front & rest & H). destruct front as [|b front]; [|discriminate H].
      exists rest. exact H.
  - cbn [grepLine]. rewrite Bool.orb_true_iff, prefix_append, IH. split.
    + intros [[rest H] | (front & rest & H)].
      * exists EmptyString, rest. exact H.
      * exists (String a front), rest. simpl. now rewrite H.
    + intros (front & rest & H). destruct front as [|b front].
      * left. exists rest. exact H.
      * right. simpl in H. injection H as _ H. exists front, rest. exact H.
Qed.

Lemma testPackages_run (tool : GoTool) (pkgs : list string) (fail : bool)
  (tested : list string) :
  testPackages tool pkgs fail tested
  = (fail || existsb (fun pkg => negb (Nat.eqb (goTest tool pkg) 0)) pkgs,
     (rev pkgs ++ tested)%list).
Proof.
  revert fail tested. induction pkgs as [|pkg pkgs IH]; intros fail tested.
  - simpl. now rewrite Bool.orb_false_r.
  - cbn [testPackages]. cbv zeta. rewrite IH. f_equal.
    + simpl. destruct (Nat.eqb (goTest tool pkg) 0); simpl;
        [reflexivity | now rewrite Bool.orb_true_r].
    + simpl. now rewrite <- app_assoc.
Qed.

(** X11. The script leaves with status 0 exactly when the build passes
    and every listed package with [/internal/] in its path passes its
    tests, and with status 1 otherwise.  When the build fails nothing
    is tested; when it passes, the packages tested are the listed
    ones with [/internal/] in their path, each of them, in the order
    listed: a failing package does not keep the later ones from being
    tested. *)
Theorem buildAndTest_status (tool : GoTool) :
  let status := fst (buildAndTest tool) in
  let tested := snd (buildAndTest tool) in
  (status = 0 <->
   goBuild tool = 0 /\
   forall pkg front rest,
     In pkg (goList tool) -> pkg = (front ++ "/internal/" ++ rest)%string ->
     goTest tool pkg = 0) /\
  (status = 0 \/ status = 1) /\
  (goBuild tool <> 0 -> tested = []) /\
  (goBuild tool = 0 -> tested = filter (grepLine "/internal/") (goList tool)) /\
  (forall pkg, In pkg tested ->
     In pkg (goList tool) /\
     exists front rest, pkg = (front ++ "/internal/" ++ rest)%string).
Proof.
  intros status tested. subst status tested. unfold buildAndTest.
  destruct (Nat.eqb (goBuild tool) 0) eqn:Hbuild; cbn [negb].
  - apply Nat.eqb_eq in Hbuild. rewrite testPackages_run, app_nil_r, rev_involutive.
    cbn [orb].
    set (PKGS := filter (grepLine "/internal/") (goList tool)).
    assert (Hfail : existsb (fun pkg => negb (Nat.eqb (goTest tool pkg) 0)) PKGS = false <->
                    forall pkg front rest,
                      In pkg (goList tool) ->
                      pkg = (front ++ "/internal/" ++ rest)%string ->
                      goTest tool pkg = 0).
    { split.
      - intros Hnone pkg front rest Hin Hpkg.
        destruct (Nat.eqb (goTest tool pkg) 0) eqn:Htest; [now apply Nat.eqb_eq|].
        assert (Hex : existsb (fun pkg => negb (Nat.eqb (goTest tool pkg) 0)) PKGS = true).
        { apply existsb_exists. exists pkg. split; [|now rewrite Htest].
          apply filter_In. split; [exact Hin|].
          apply grepLine_occurs. now exists front, rest. }
        congruence.
      - intros Hall.
        destruct (existsb _ PKGS) eqn:Hex; [|reflexivity].
        apply existsb_exists in Hex. destruct Hex as (pkg & Hin & Htest).
        apply filter_In in Hin. destruct Hin as [Hin Hgrep].
        apply grepLine_occurs in Hgrep. destruct Hgrep as (front & rest & Hpkg).
        rewrite (Hall pkg front rest Hin Hpkg) in Htest. discriminate Htest. }
    destruct (existsb _ PKGS) eqn:Hex; cbn [fst snd].
    + split; [split; [discriminate|]|].
      { intros [_ Hall]. apply Hfail in Hall. discriminate Hall. }
      split; [now right|]. split; [intros H; contradiction|]. split; [reflexivity|].
      intros pkg Hin. apply filter_In in Hin. destruct Hin as [Hin Hgrep].
      split; [exact Hin | now apply grepLine_occurs].
    + split; [split; [intros _; split; [exact Hbuild | now apply Hfail]|reflexivity]|].
      split; [now left|]. split; [intros H; contradiction|]. split; [reflexivity|].
      intros pkg Hin. apply filter_In in Hin. destruct Hin as [Hin Hgrep].
      split; [exact Hin | now apply grepLine_occurs].
  - apply Nat.eqb_neq in Hbuild. cbn [fst snd].
    split; [split; [discriminate | intros [H _]; contradiction]|].
    split; [now right|]. split; [reflexivity|]. split; [intros H; contradiction|].
    intros pkg [].
Qed.

Example buildAndTest_goes_on_after_failure :
  buildAndTest
    (goToolOf ["github.com/dfds/provider-confluent/apis/acl/v1alpha1";
               "github.com/dfds/provider-confluent/internal/clients";
               "github.com/dfds/provider-confluent/internal/controller/serviceaccount"]
       "github.com/dfds/provider-confluent/internal/clients")
  = (1, ["github.com/dfds/provider-confluent/internal/clients";
         "github.com/dfds/provider-confluent/internal/controller/serviceaccount"]).
Proof. reflexivity. Qed.
